(** * mcp-github: a shallow embedding of the tool dispatcher and of the
      multi-call operations, with the properties of its specification.

    The server (src/index.ts) receives a tool name and an argument record,
    resolves the credential, validates the record with the zod schema of the
    tool and calls the operation of src/operations/*.ts, which issues one or
    several [githubRequest] calls.  Asynchronous code is sequential from the
    caller's side (every call is awaited), so an operation is modelled as a
    computation in a state-and-exception monad over the remote service and
    the log of the requests made. *)

From Stdlib Require Import ZArith String List Ascii Bool Lia.
From Stdlib Require Import DecimalString.
Import ListNotations.
Local Open Scope list_scope.
Local Open Scope string_scope.
#[local] Set Warnings "-register-all".

(** ** JSON values, as JavaScript sees them once parsed *)

Module Json.

(** Numbers are restricted to integers: no operation computes with them,
    they are only validated and printed into URLs, and how a number is
    printed is left to the platform.  A number with a fraction is outside
    the model; an integer too large for a JavaScript number does not reach
    the code, [JSON.parse] has rounded it before. *)
Inductive json : Type :=
| JNull
| JBool (b : bool)
| JNum (n : Z)
| JStr (s : string)
| JArr (xs : list json)
| JObj (kvs : list (string * json)).

(** A JavaScript value that may be [undefined]. *)
Definition value := option json.

(** Property lookup in an object literal ([o.k], [undefined] when absent). *)
Fixpoint assoc {A : Type} (k : string) (kvs : list (string * A)) : option A :=
  match kvs with
  | [] => None
  | (k', v) :: rest => if String.eqb k k' then Some v else assoc k rest
  end.

Definition prop (o : json) (k : string) : value :=
  match o with
  | JObj kvs => assoc k kvs
  | _ => None
  end.

(** Assignment [o.k = v]: the property keeps its place when it exists and is
    added last otherwise. *)
Fixpoint set_assoc {A : Type} (k : string) (v : A) (kvs : list (string * A))
  : list (string * A) :=
  match kvs with
  | [] => [(k, v)]
  | (k', v') :: rest =>
      if String.eqb k k' then (k, v) :: rest else (k', v') :: set_assoc k v rest
  end.

Definition set_prop (o : json) (k : string) (v : json) : json :=
  match o with
  | JObj kvs => JObj (set_assoc k v kvs)
  | _ => o
  end.

(** JavaScript truthiness, the test behind [!x], [x && y] and [if (x)]. *)
Definition truthy (v : value) : bool :=
  match v with
  | None => false
  | Some JNull => false
  | Some (JBool b) => b
  | Some (JNum n) => negb (n =? 0)%Z
  | Some (JStr s) => negb (s =? "")
  | Some (JArr _) => true
  | Some (JObj _) => true
  end.

Definition isArray (j : json) : bool :=
  match j with JArr _ => true | _ => false end.

(** An object literal some of whose properties are [undefined]: such
    properties are not serialised. *)
Fixpoint object (fields : list (string * value)) : list (string * json) :=
  match fields with
  | [] => []
  | (k, Some v) :: rest => (k, v) :: object rest
  | (_, None) :: rest => object rest
  end.

End Json.
Import Json.

(** ** Strings *)

(** [String.prototype.trim] removes white space at both ends; a string is
    blank when nothing is left.  Characters are code units below 256, where
    the white space characters are TAB, LF, VT, FF, CR, SP and NBSP. *)
Definition is_white_space (c : ascii) : bool :=
  let n := nat_of_ascii c in
  (Nat.eqb n 9 || Nat.eqb n 10 || Nat.eqb n 11 || Nat.eqb n 12
   || Nat.eqb n 13 || Nat.eqb n 32 || Nat.eqb n 160)%bool.

Fixpoint trim_start (s : string) : string :=
  match s with
  | EmptyString => EmptyString
  | String c rest => if is_white_space c then trim_start rest else s
  end.

Fixpoint string_rev_onto (s acc : string) : string :=
  match s with
  | EmptyString => acc
  | String c rest => string_rev_onto rest (String c acc)
  end.

Definition string_rev (s : string) : string := string_rev_onto s EmptyString.

Definition trim (s : string) : string :=
  string_rev (trim_start (string_rev (trim_start s))).

(** [s.replace(pat, by)] with a string pattern: the first occurrence only. *)
Fixpoint drop (n : nat) (s : string) : string :=
  match n, s with
  | O, _ => s
  | S n', String _ rest => drop n' rest
  | S _, EmptyString => EmptyString
  end.

Fixpoint replace_first (pat by_ s : string) : string :=
  if String.prefix pat s then by_ ++ drop (String.length pat) s
  else match s with
       | EmptyString => EmptyString
       | String c rest => String c (replace_first pat by_ rest)
       end.

(** ** zod schemas of the input contracts *)

Module Zod.

Inductive ztype : Type :=
| ZString
| ZNumber
| ZBoolean
| ZEnum (values : list string)
| ZArray (element : ztype)
| ZRecord (element : ztype)
| ZObject (shape : list (string * ztype))
| ZOptional (inner : ztype).

Inductive path_element : Type :=
| PKey (k : string)
| PIndex (i : nat).

(** One entry of [ZodError.errors]. *)
Record ZodIssue : Type := mkIssue {
  code : string;
  path : list path_element;
  expected : string;
  received : string
}.

(** zod's name of the type of the value received. *)
Definition parsedType (v : value) : string :=
  match v with
  | None => "undefined"
  | Some JNull => "null"
  | Some (JBool _) => "boolean"
  | Some (JNum _) => "number"
  | Some (JStr _) => "string"
  | Some (JArr _) => "array"
  | Some (JObj _) => "object"
  end.

Definition invalid_type (p : list path_element) (want : string) (v : value)
  : ZodIssue :=
  mkIssue "invalid_type" p want (parsedType v).

Fixpoint join_values (vs : list string) : string :=
  match vs with
  | [] => ""
  | [v] => "'" ++ v ++ "'"
  | v :: rest => "'" ++ v ++ "' | " ++ join_values rest
  end.

Definition in_enum (s : string) (vs : list string) : bool :=
  existsb (String.eqb s) vs.

(** The outcome of validating one value: the issues found, or the parsed
    value ([None] is [undefined], the output of an absent optional). *)
Definition outcome : Type := list ZodIssue + value.

(** Adding a validated property to an object under construction; the issues
    of every property are collected, zod does not stop at the first. *)
Definition add_property (k : string) (r : outcome)
  (rest : list ZodIssue + list (string * json))
  : list ZodIssue + list (string * json) :=
  match r, rest with
  | inl e1, inl e2 => inl (e1 ++ e2)%list
  | inl e1, inr _ => inl e1
  | inr _, inl e2 => inl e2
  | inr (Some v), inr kvs => inr ((k, v) :: kvs)
  | inr None, inr kvs => inr kvs
  end.

Definition add_element (r : outcome) (rest : list ZodIssue + list json)
  : list ZodIssue + list json :=
  match r, rest with
  | inl e1, inl e2 => inl (e1 ++ e2)%list
  | inl e1, inr _ => inl e1
  | inr _, inl e2 => inl e2
  | inr (Some v), inr xs => inr (v :: xs)
  | inr None, inr xs => inr (JNull :: xs)
  end.

(** [schema.safeParse]: objects strip the keys the shape does not name, an
    optional accepts [undefined] only, an enumeration accepts exactly the
    strings it lists. *)
Fixpoint validate (t : ztype) (p : list path_element) (v : value) {struct t}
  : outcome :=
  match t with
  | ZString =>
      match v with
      | Some (JStr _) => inr v
      | _ => inl [invalid_type p "string" v]
      end
  | ZNumber =>
      match v with
      | Some (JNum _) => inr v
      | _ => inl [invalid_type p "number" v]
      end
  | ZBoolean =>
      match v with
      | Some (JBool _) => inr v
      | _ => inl [invalid_type p "boolean" v]
      end
  | ZEnum vs =>
      match v with
      | Some (JStr s) =>
          if in_enum s vs then inr v
          else inl [mkIssue "invalid_enum_value" p (join_values vs) ("'" ++ s ++ "'")]
      | _ => inl [invalid_type p (join_values vs) v]
      end
  | ZOptional inner =>
      match v with
      | None => inr None
      | Some _ => validate inner p v
      end
  | ZArray element =>
      match v with
      | Some (JArr xs) =>
          let r :=
            (fix elements (xs : list json) (i : nat) {struct xs}
               : list ZodIssue + list json :=
               match xs with
               | [] => inr []
               | x :: rest =>
                   add_element (validate element (p ++ [PIndex i])%list (Some x))
                               (elements rest (S i))
               end) xs 0%nat in
          match r with
          | inl e => inl e
          | inr ys => inr (Some (JArr ys))
          end
      | _ => inl [invalid_type p "array" v]
      end
  | ZRecord element =>
      match v with
      | Some (JObj kvs) =>
          let r :=
            (fix entries (kvs : list (string * json)) {struct kvs}
               : list ZodIssue + list (string * json) :=
               match kvs with
               | [] => inr []
               | (k, x) :: rest =>
                   add_property k (validate element (p ++ [PKey k])%list (Some x))
                                (entries rest)
               end) kvs in
          match r with
          | inl e => inl e
          | inr out => inr (Some (JObj out))
          end
      | _ => inl [invalid_type p "object" v]
      end
  | ZObject shape =>
      match v with
      | Some (JObj kvs) =>
          let r :=
            (fix properties (sh : list (string * ztype)) {struct sh}
               : list ZodIssue + list (string * json) :=
               match sh with
               | [] => inr []
               | (k, tk) :: rest =>
                   add_property k (validate tk (p ++ [PKey k])%list (assoc k kvs))
                                (properties rest)
               end) shape in
          match r with
          | inl e => inl e
          | inr out => inr (Some (JObj out))
          end
      | _ => inl [invalid_type p "object" v]
      end
  end.

(** The same walk over the shape, named, for the lemmas. *)
Fixpoint validate_shape (sh : list (string * ztype)) (p : list path_element)
  (kvs : list (string * json)) : list ZodIssue + list (string * json) :=
  match sh with
  | [] => inr []
  | (k, tk) :: rest =>
      add_property k (validate tk (p ++ [PKey k])%list (assoc k kvs))
                   (validate_shape rest p kvs)
  end.

(** [schema.extend({...})], the spread of the new keys over the shape: a
    key the shape has keeps its place and takes the new type, the other keys
    are added last. *)
Definition extend (t : ztype) (more : list (string * ztype)) : ztype :=
  match t with
  | ZObject shape =>
      ZObject (fold_left (fun sh kt => set_assoc (fst kt) (snd kt) sh) more shape)
  | _ => t
  end.

(** A key is required by a shape when the shape names it with a type that
    is not optional. *)
Definition is_optional (t : ztype) : bool :=
  match t with ZOptional _ => true | _ => false end.

Definition required_in (k : string) (t : ztype) : bool :=
  match t with
  | ZObject shape =>
      match assoc k shape with
      | Some tk => negb (is_optional tk)
      | None => false
      end
  | _ => false
  end.

(** A value lacks a required field of a contract when it is [undefined]
    where the contract is not optional, or when a value nested in it, under
    a key of an object, at an index of an array or under a key of a record,
    lacks one. *)
Fixpoint lacks_required (t : ztype) (v : value) {struct t} : bool :=
  match v with
  | None => negb (is_optional t)
  | Some x =>
      match t with
      | ZOptional inner => lacks_required inner (Some x)
      | ZArray element =>
          match x with
          | JArr xs => existsb (fun y => lacks_required element (Some y)) xs
          | _ => false
          end
      | ZRecord element =>
          match x with
          | JObj kvs => existsb (fun kv => lacks_required element (Some (snd kv))) kvs
          | _ => false
          end
      | ZObject shape =>
          match x with
          | JObj kvs =>
              (fix any (sh : list (string * ztype)) {struct sh} : bool :=
                 match sh with
                 | [] => false
                 | (k, tk) :: rest => (lacks_required tk (assoc k kvs) || any rest)%bool
                 end) shape
          | _ => false
          end
      | _ => false
      end
  end.

(** The record lacks a required field under the key [k] of the contract:
    the key itself when the contract requires it, or a required field of
    the value the record has under it. *)
Definition lacks_required_under (k : string) (t : ztype)
  (given : list (string * json)) : bool :=
  match t with
  | ZObject shape =>
      match assoc k shape with
      | Some tk => lacks_required tk (assoc k given)
      | None => false
      end
  | _ => false
  end.

(** The values of an enumerated key of a shape, optional or not. *)
Definition enum_of (k : string) (t : ztype) : option (list string) :=
  match t with
  | ZObject shape =>
      match assoc k shape with
      | Some (ZEnum vs) => Some vs
      | Some (ZOptional (ZEnum vs)) => Some vs
      | _ => None
      end
  | _ => None
  end.

End Zod.
Import Zod.

(** ** Errors (classes imported from common/errors.ts) *)

(** The class of a [GitHubError] instance; every other class extends the
    base class, and a rate-limit error carries [resetAt] (a [Date], in
    milliseconds). *)
Inductive GitHubErrorClass : Type :=
| CGitHubError
| CGitHubValidationError
| CGitHubResourceNotFoundError
| CGitHubAuthenticationError
| CGitHubPermissionError
| CGitHubRateLimitError (resetAt : Z)
| CGitHubConflictError.

Record GitHubError : Type := mkGitHubError {
  cls : GitHubErrorClass;
  message : string;
  status : Z;
  response : value
}.

(** What a [throw] can carry. *)
Inductive exn : Type :=
| Error (msg : string)
| ZodError (errors : list ZodIssue)
| GitHubFailure (e : GitHubError)
| TypeError (msg : string).

Definition isGitHubError (e : exn) : bool :=
  match e with GitHubFailure _ => true | _ => false end.

(** ** Requests and replies *)

(** The [body] option of [githubRequest]: an object, which is structured,
    or a string, which is raw. *)
Inductive body : Type :=
| JsonBody (j : json)
| RawBody (s : string).

Record Request : Type := mkRequest {
  req_pat : string;
  req_url : string;
  req_method : string;
  req_body : option body;
  req_headers : list (string * string)
}.

Record Response : Type := mkResponse {
  resp_status : Z;
  resp_headers : list (string * string);
  resp_body : value
}.

Inductive Reply : Type :=
| NetworkFailure (reason : string)
| Answer (r : Response).

Definition ok (r : Response) : bool :=
  ((200 <=? resp_status r) && (resp_status r <? 300))%Z.

(** A call fails when no response arrives or the response is not 2xx. *)
Definition failed (r : Reply) : bool :=
  match r with
  | NetworkFailure _ => true
  | Answer a => negb (ok a)
  end.

(** The options of [githubRequest]. *)
Record RequestOptions : Type := mkOptions {
  opt_method : option string;
  opt_body : option body;
  opt_headers : list (string * string)
}.

Definition GET : RequestOptions := mkOptions None None [].

(** ** What the code runs on *)

(** The remote service: a state and the reply to each request. *)
Class Service : Type := {
  Remote : Type;
  serve : Remote -> Request -> Reply * Remote
}.

(** The JavaScript platform: JSON, Date, Buffer and URL are used through
    these functions only.  [Number_toString] is the text a number takes in a
    template literal and from [toString()]: for an integer the decimal
    digits below 10^21 in magnitude and the exponent notation from there
    on, which is why it is left to the platform. *)
Class Platform : Type := {
  Number_toString : Z -> string;
  JSON_stringify : json -> string;
  JSON_stringify_indent : json -> string;
  JSON_stringify_issues : list ZodIssue -> string;
  Date_toISOString : Z -> string;
  Buffer_from_utf8 : string -> list ascii;
  Buffer_from_base64 : string -> list ascii;
  Buffer_toString_utf8 : list ascii -> string;
  Buffer_toString_base64 : list ascii -> string;
  URL : Type;
  URL_new : string -> option URL;
  searchParams_append : URL -> string -> string -> URL;
  URL_toString : URL -> string
}.

(** The modules of the repository that the operations import and that are
    not part of the sources at hand (common/types.ts, common/utils.ts,
    common/errors.ts): response contracts as validators, the typed
    projections the operations read from a validated response, and the
    details of an error that the specification leaves open. *)
Class Common : Type := {
  GitHubReferenceSchema : json -> list ZodIssue + json;
  GitHubTreeSchema : json -> list ZodIssue + json;
  GitHubCommitSchema : json -> list ZodIssue + json;
  GitHubContentSchema : json -> list ZodIssue + json;
  GitHubCreateUpdateFileResponseSchema : json -> list ZodIssue + json;
  ReleaseAssetSchema : json -> list ZodIssue + json;
  CommitStatusSchema : json -> list ZodIssue + json;
  reference_object_sha : json -> string;
  tree_sha : json -> string;
  commit_sha : json -> string;
  buildUrl : string -> list (string * option string) -> string;
  errorMessage : Z -> value -> string;
  rateLimitRemaining : list (string * string) -> option Z;
  rateLimitReset : list (string * string) -> value -> Z
}.

(** The process environment variables the server reads. *)
Record Env : Type := mkEnv {
  GITHUB_PAT : option string;
  GITHUB_PERSONAL_ACCESS_TOKEN : option string
}.

(** ** The error classifier *)

Section Classifier.
Context {CM : Common}.

Definition rate_limit_exhausted (headers : list (string * string)) : bool :=
  match rateLimitRemaining headers with
  | Some 0%Z => true
  | _ => false
  end.

(** Modelled from the spec: [createGitHubError] of common/errors.ts is not
    among the sources.  Section 4.4: 401 is an authentication error, 403 a
    permission error, 404 not found, 409 a conflict, 422 a validation error
    that keeps the body, 429 or a 403 whose rate-limit-remaining header is 0
    a rate-limit error with a computed reset time, anything else the generic
    error with status and body. *)
Definition classify (st : Z) (headers : list (string * string)) (b : value)
  : GitHubErrorClass :=
  if (st =? 429)%Z then CGitHubRateLimitError (rateLimitReset headers b)
  else if ((st =? 403)%Z && rate_limit_exhausted headers)%bool
       then CGitHubRateLimitError (rateLimitReset headers b)
  else if (st =? 401)%Z then CGitHubAuthenticationError
  else if (st =? 403)%Z then CGitHubPermissionError
  else if (st =? 404)%Z then CGitHubResourceNotFoundError
  else if (st =? 409)%Z then CGitHubConflictError
  else if (st =? 422)%Z then CGitHubValidationError
  else CGitHubError.

(** Modelled from the spec: the error raised for a response that is not
    2xx carries the class above, the status code and the parsed body
    (section 4.3); how its message is chosen is left open. *)
Definition createGitHubError (st : Z) (headers : list (string * string))
  (b : value) : GitHubError :=
  mkGitHubError (classify st headers b) (errorMessage st b) st b.

End Classifier.

(** ** The monad of an operation *)

(** An awaited call returns a value or throws. *)
Inductive Result (A : Type) : Type :=
| Return (a : A)
| Throw (e : exn).
Arguments Return {A} a.
Arguments Throw {A} e.

Section Monad.
Context {SV : Service} {PF : Platform} {CM : Common}.

(** The remote state, the calls made so far with their replies (oldest
    first) and the lines written with [console.error]. *)
Record World : Type := mkWorld {
  remote : Remote;
  calls : list (Request * Reply);
  console : list string
}.

Definition M (A : Type) : Type := World -> Result A * World.

Definition ret {A : Type} (a : A) : M A := fun w => (Return a, w).

Definition throw {A : Type} (e : exn) : M A := fun w => (Throw e, w).

Definition bind {A B : Type} (m : M A) (k : A -> M B) : M B :=
  fun w =>
    match m w with
    | (Return a, w') => k a w'
    | (Throw e, w') => (Throw e, w')
    end.

(** [try { m } catch (error) { h error }]. *)
Definition try_catch {A : Type} (m : M A) (h : exn -> M A) : M A :=
  fun w =>
    match m w with
    | (Return a, w') => (Return a, w')
    | (Throw e, w') => h e w'
    end.

Definition console_error (line : string) : M unit :=
  fun w => (Return tt, mkWorld (remote w) (calls w) (console w ++ [line])%list).

(** [schema.parse(x)]: the validated value, or a thrown [ZodError]. *)
Definition parse (schema : json -> list ZodIssue + json) (x : json) : M json :=
  match schema x with
  | inr v => ret v
  | inl issues => throw (ZodError issues)
  end.

(** [schema.parse] for an input contract written with zod. *)
Definition parse_input (t : ztype) (x : json) : M json :=
  match validate t [] (Some x) with
  | inr (Some v) => ret v
  | inr None => ret JNull
  | inl issues => throw (ZodError issues)
  end.

End Monad.

Declare Scope op_scope.
Delimit Scope op_scope with op.
Notation "x <- m ;; k" := (bind m (fun x => k))
  (at level 61, m at next level, right associativity) : op_scope.
Notation "m ;;; k" := (bind m (fun _ => k))
  (at level 61, right associativity) : op_scope.

Definition nl : string := String (ascii_of_nat 10) EmptyString.

(** ** Reading a validated argument record *)

(** The fields of [args] once [parse] has returned; the contract guarantees
    the type of each, the last case of each function is not reached. *)
Definition field_string (args : json) (k : string) : string :=
  match prop args k with Some (JStr s) => s | _ => "" end.

Definition field_optional_string (args : json) (k : string) : option string :=
  match prop args k with Some (JStr s) => Some s | _ => None end.

Definition field_number (args : json) (k : string) : Z :=
  match prop args k with Some (JNum n) => n | _ => 0%Z end.

Definition field_optional_number (args : json) (k : string) : option Z :=
  match prop args k with Some (JNum n) => Some n | _ => None end.

Definition field_optional_strings (args : json) (k : string)
  : option (list string) :=
  match prop args k with
  | Some (JArr xs) =>
      Some (map (fun x => match x with JStr s => s | _ => "" end) xs)
  | _ => None
  end.

(** [const { a, b, ...options } = args]: what is left of the record. *)
Definition rest_of (args : json) (taken : list string) : list (string * json) :=
  match args with
  | JObj kvs =>
      filter (fun kv => negb (existsb (String.eqb (fst kv)) taken)) kvs
  | _ => []
  end.

Section Code.
Context {SV : Service} {PF : Platform} {CM : Common}.
Local Open Scope op_scope.

(** ** common/utils.ts *)

(** Modelled from the spec: [githubRequest] of common/utils.ts is not among
    the sources.  Section 4.3: one network call with the credential attached
    (method GET by default, an optional structured or raw body, optional
    headers); a response that is not 2xx raises the classified error with
    the status and the parsed body; a success with an empty body returns the
    empty object, any other success returns the parsed body.  No retry. *)
Definition githubRequest (github_pat url : string) (options : RequestOptions)
  : M json :=
  fun w =>
    let request :=
      mkRequest github_pat url
        (match opt_method options with Some m => m | None => "GET" end)
        (opt_body options) (opt_headers options) in
    let '(reply, remote') := serve (remote w) request in
    let w' := mkWorld remote' (calls w ++ [(request, reply)])%list (console w) in
    match reply with
    | NetworkFailure reason => (Throw (TypeError reason), w')
    | Answer r =>
        if ok r then
          (Return (match resp_body r with Some j => j | None => JObj [] end), w')
        else
          (Throw (GitHubFailure
                    (createGitHubError (resp_status r) (resp_headers r) (resp_body r))),
           w')
    end.

(** Modelled from the spec: what [githubRequest] sends for the body it is
    given, which the request of the model records as given.  Sections 4.3
    (an optional structured or raw body) and 6 (bodies are JSON except for
    the asset upload, whose content is decoded before transmission): a
    structured body is sent as its JSON text, a raw body as it is. *)
Definition transmitted (b : body) : string :=
  match b with
  | JsonBody j => JSON_stringify j
  | RawBody text => text
  end.

Definition repos (owner repo : string) : string :=
  "https://api.github.com/repos/" ++ owner ++ "/" ++ repo.

(** ** operations/branches.ts *)

Definition getDefaultBranchSHA (github_pat owner repo : string) : M string :=
  try_catch
    (response <- githubRequest github_pat
                   (repos owner repo ++ "/git/refs/heads/main") GET ;;
     data <- parse GitHubReferenceSchema response ;;
     ret (reference_object_sha data))
    (fun error =>
       masterResponse <- githubRequest github_pat
                           (repos owner repo ++ "/git/refs/heads/master") GET ;;
       if negb (truthy (Some masterResponse)) then
         throw (Error "Could not find default branch (tried 'main' and 'master')")
       else
         data <- parse GitHubReferenceSchema masterResponse ;;
         ret (reference_object_sha data)).

Definition createBranch (github_pat owner repo : string) (ref sha : string)
  : M json :=
  let fullRef := "refs/heads/" ++ ref in
  response <- githubRequest github_pat (repos owner repo ++ "/git/refs")
                (mkOptions (Some "POST")
                   (Some (JsonBody (JObj [("ref", JStr fullRef); ("sha", JStr sha)])))
                   []) ;;
  parse GitHubReferenceSchema response.

Definition getBranchSHA (github_pat owner repo branch : string) : M string :=
  response <- githubRequest github_pat
                (repos owner repo ++ "/git/refs/heads/" ++ branch) GET ;;
  data <- parse GitHubReferenceSchema response ;;
  ret (reference_object_sha data).

(** [if (fromBranch)]: an absent and an empty source both take the default
    branch. *)
Definition createBranchFromRef (github_pat owner repo newBranch : string)
  (fromBranch : option string) : M json :=
  sha <- (if truthy (option_map JStr fromBranch) then
            getBranchSHA github_pat owner repo
              (match fromBranch with Some b => b | None => "" end)
          else getDefaultBranchSHA github_pat owner repo) ;;
  createBranch github_pat owner repo newBranch sha.

(** ** operations/files.ts *)

Record FileOperation : Type := mkFile {
  file_path : string;
  file_content : string
}.

Record GetFileContentsArgs : Type := mkGetFileContents {
  gfc_github_pat : string;
  gfc_owner : string;
  gfc_repo : string;
  gfc_path : string;
  gfc_encoded : option bool;
  gfc_branch : option string
}.

(** The parameter [encoded = false]: the default of an omitted flag. *)
Definition encoded_or_default (a : GetFileContentsArgs) : bool :=
  match gfc_encoded a with
  | Some b => b
  | None => false
  end.

(** The description the input schema gives of the same flag. *)
Definition GetFileContentsSchema_encoded_description : string :=
  "Whether to return the content encoded in base64 (default = true)".

Definition getFileContents (a : GetFileContentsArgs) : M json :=
  let url := repos (gfc_owner a) (gfc_repo a) ++ "/contents/" ++ gfc_path a in
  let url := if truthy (option_map JStr (gfc_branch a))
             then url ++ "?ref=" ++ match gfc_branch a with Some b => b | None => "" end
             else url in
  response <- githubRequest (gfc_github_pat a) url GET ;;
  data <- parse GitHubContentSchema response ;;
  if (negb (isArray data) && truthy (prop data "content")
      && negb (encoded_or_default a))%bool
  then
    match prop data "content" with
    | Some (JStr c) =>
        let text := Buffer_toString_utf8 (Buffer_from_base64 c) in
        ret (set_prop (set_prop data "content" (JStr text)) "encoding" (JStr "utf8"))
    | _ =>
        (* a content that is not a string is excluded by the contract's type *)
        throw (TypeError "The first argument must be of type string")
    end
  else ret data.

Definition createOrUpdateFile (github_pat owner repo path content message
  branch : string) (sha : option string) : M json :=
  let sha0 : value := option_map JStr sha in
  currentSha <-
    (if negb (truthy sha0) then
       try_catch
         (existingFile <- getFileContents
                            (mkGetFileContents github_pat owner repo path None
                                               (Some branch)) ;;
          if negb (isArray existingFile) then ret (prop existingFile "sha")
          else ret sha0)
         (fun error =>
            console_error "Note: File does not exist in branch, will create new file" ;;;
            ret sha0)
     else ret sha0) ;;
  let encodedContent := Buffer_toString_base64 (Buffer_from_utf8 content) in
  let url := repos owner repo ++ "/contents/" ++ path in
  let body :=
    JObj ([("message", JStr message); ("content", JStr encodedContent);
           ("branch", JStr branch)]
          ++ (if truthy currentSha
              then object [("sha", currentSha)]
              else []))%list in
  response <- githubRequest github_pat url
                (mkOptions (Some "PUT") (Some (JsonBody body)) []) ;;
  parse GitHubCreateUpdateFileResponseSchema response.

Definition createTree (github_pat owner repo : string)
  (files : list FileOperation) (baseTree : option string) : M json :=
  let tree :=
    map (fun file =>
           JObj [("path", JStr (file_path file)); ("mode", JStr "100644");
                 ("type", JStr "blob"); ("content", JStr (file_content file))])
        files in
  response <- githubRequest github_pat (repos owner repo ++ "/git/trees")
                (mkOptions (Some "POST")
                   (Some (JsonBody
                            (JObj (object [("tree", Some (JArr tree));
                                           ("base_tree", option_map JStr baseTree)]))))
                   []) ;;
  parse GitHubTreeSchema response.

Definition createCommit (github_pat owner repo message tree : string)
  (parents : list string) : M json :=
  response <- githubRequest github_pat (repos owner repo ++ "/git/commits")
                (mkOptions (Some "POST")
                   (Some (JsonBody
                            (JObj [("message", JStr message); ("tree", JStr tree);
                                   ("parents", JArr (map JStr parents))])))
                   []) ;;
  parse GitHubCommitSchema response.

Definition updateReference (github_pat owner repo ref sha : string) : M json :=
  response <- githubRequest github_pat (repos owner repo ++ "/git/refs/" ++ ref)
                (mkOptions (Some "PATCH")
                   (Some (JsonBody (JObj [("sha", JStr sha); ("force", JBool true)])))
                   []) ;;
  parse GitHubReferenceSchema response.

Definition pushFiles (github_pat owner repo branch : string)
  (files : list FileOperation) (message : string) : M json :=
  refResponse <- githubRequest github_pat
                   (repos owner repo ++ "/git/refs/heads/" ++ branch) GET ;;
  ref <- parse GitHubReferenceSchema refResponse ;;
  let commitSha := reference_object_sha ref in
  tree <- createTree github_pat owner repo files (Some commitSha) ;;
  commit <- createCommit github_pat owner repo message (tree_sha tree) [commitSha] ;;
  updateReference github_pat owner repo ("heads/" ++ branch) (commit_sha commit).

(** ** operations/releases.ts *)

Definition uploadReleaseAsset (github_pat owner repo : string) (release_id : Z)
  (name content content_type : string) (label : option string) : M json :=
  release <- githubRequest github_pat
               (repos owner repo ++ "/releases/" ++ Number_toString release_id) GET ;;
  match prop release "upload_url" with
  | Some (JStr upload_url) =>
      let uploadUrl := replace_first "{?name,label}" "" upload_url in
      match URL_new uploadUrl with
      | None => throw (TypeError "Invalid URL")
      | Some url =>
          let url := searchParams_append url "name" name in
          let url := if truthy (option_map JStr label)
                     then searchParams_append url "label"
                            (match label with Some l => l | None => "" end)
                     else url in
          response <- githubRequest github_pat (URL_toString url)
                        (mkOptions (Some "POST")
                           (Some (RawBody (Buffer_toString_utf8
                                             (Buffer_from_base64 content))))
                           [("Content-Type", content_type)]) ;;
          parse ReleaseAssetSchema response
      end
  | _ =>
      (* [(release as any).upload_url.replace] on a value without it *)
      throw (TypeError "Cannot read properties of undefined (reading 'replace')")
  end.

(** ** operations/statuses.ts *)

Definition createCommitStatus (github_pat owner repo sha state : string)
  (options : list (string * json)) : M json :=
  response <- githubRequest github_pat (repos owner repo ++ "/statuses/" ++ sha)
                (mkOptions (Some "POST")
                   (Some (JsonBody (JObj ([("state", JStr state)] ++ options)%list)))
                   []) ;;
  parse CommitStatusSchema response.

(** ** operations/issues.ts *)

Definition getIssue (github_pat owner repo : string) (issue_number : Z) : M json :=
  githubRequest github_pat
    (repos owner repo ++ "/issues/" ++ Number_toString issue_number) GET.

Definition listIssues (github_pat owner repo : string) (options : json) : M json :=
  let urlParams :=
    [("direction", field_optional_string options "direction");
     ("labels", option_map (String.concat ",") (field_optional_strings options "labels"));
     ("page", option_map Number_toString (field_optional_number options "page"));
     ("per_page", option_map Number_toString (field_optional_number options "per_page"));
     ("since", field_optional_string options "since");
     ("sort", field_optional_string options "sort");
     ("state", field_optional_string options "state")] in
  githubRequest github_pat (buildUrl (repos owner repo ++ "/issues") urlParams) GET.

End Code.

Definition field_files (args : json) (k : string) : list FileOperation :=
  match prop args k with
  | Some (JArr xs) =>
      map (fun x => mkFile (field_string x "path") (field_string x "content")) xs
  | _ => []
  end.

(** ** The input contracts (zod schemas of src/operations) *)

Definition github_pat_field : list (string * ztype) := [("github_pat", ZString)].

(** operations/files.ts *)
Definition FileOperationSchema : ztype :=
  ZObject [("path", ZString); ("content", ZString)].

Definition CreateOrUpdateFileSchema : ztype :=
  ZObject [("owner", ZString); ("repo", ZString); ("path", ZString);
           ("content", ZString); ("message", ZString); ("branch", ZString);
           ("sha", ZOptional ZString)].
Definition _CreateOrUpdateFileSchema : ztype :=
  extend CreateOrUpdateFileSchema github_pat_field.

Definition GetFileContentsSchema : ztype :=
  ZObject [("owner", ZString); ("repo", ZString); ("path", ZString);
           ("encoded", ZOptional ZBoolean); ("branch", ZOptional ZString)].
Definition _GetFileContentsSchema : ztype :=
  extend GetFileContentsSchema github_pat_field.

Definition PushFilesSchema : ztype :=
  ZObject [("owner", ZString); ("repo", ZString); ("branch", ZString);
           ("files", ZArray FileOperationSchema); ("message", ZString)].
Definition _PushFilesSchema : ztype := extend PushFilesSchema github_pat_field.

(** operations/issues.ts *)
Definition GetIssueSchema : ztype :=
  ZObject [("owner", ZString); ("repo", ZString); ("issue_number", ZNumber)].
Definition _GetIssueSchema : ztype := extend GetIssueSchema github_pat_field.

Definition ListIssuesOptionsSchema : ztype :=
  ZObject [("owner", ZString); ("repo", ZString);
           ("direction", ZOptional (ZEnum ["asc"; "desc"]));
           ("labels", ZOptional (ZArray ZString));
           ("page", ZOptional ZNumber); ("per_page", ZOptional ZNumber);
           ("since", ZOptional ZString);
           ("sort", ZOptional (ZEnum ["created"; "updated"; "comments"]));
           ("state", ZOptional (ZEnum ["open"; "closed"; "all"]))].
Definition _ListIssuesOptionsSchema : ztype :=
  extend ListIssuesOptionsSchema github_pat_field.

(** operations/branches.ts *)
Definition CreateBranchSchema : ztype :=
  ZObject [("owner", ZString); ("repo", ZString); ("branch", ZString);
           ("from_branch", ZOptional ZString)].

(** operations/statuses.ts *)
Definition CreateCommitStatusSchema : ztype :=
  ZObject [("owner", ZString); ("repo", ZString); ("sha", ZString);
           ("state", ZEnum ["error"; "failure"; "pending"; "success"]);
           ("target_url", ZOptional ZString); ("description", ZOptional ZString);
           ("context", ZOptional ZString)].
Definition _CreateCommitStatusSchema : ztype :=
  extend CreateCommitStatusSchema github_pat_field.

(** operations/releases.ts *)
Definition UploadReleaseAssetSchema : ztype :=
  ZObject [("owner", ZString); ("repo", ZString); ("release_id", ZNumber);
           ("name", ZString); ("label", ZOptional ZString);
           ("content", ZString); ("content_type", ZString)].
Definition _UploadReleaseAssetSchema : ztype :=
  extend UploadReleaseAssetSchema github_pat_field.

(** operations/rate_limit.ts *)
Definition GetRateLimitSchema : ztype := ZObject [].
Definition _GetRateLimitSchema : ztype := extend GetRateLimitSchema github_pat_field.

(** ** src/index.ts *)

Section Server.
Context {SV : Service} {PF : Platform} {CM : Common}.
Local Open Scope op_scope.

Definition formatGitHubError (error : GitHubError) : string :=
  match cls error with
  | CGitHubValidationError =>
      let message := "Validation Error: " ++ message error in
      if truthy (response error) then
        message ++ nl ++ "Details: "
        ++ match response error with
           | Some r => JSON_stringify r
           | None => ""
           end
      else message
  | CGitHubResourceNotFoundError => "Not Found: " ++ message error
  | CGitHubAuthenticationError => "Authentication Failed: " ++ message error
  | CGitHubPermissionError => "Permission Denied: " ++ message error
  | CGitHubRateLimitError resetAt =>
      "Rate Limit Exceeded: " ++ message error ++ nl ++ "Resets at: "
      ++ Date_toISOString resetAt
  | CGitHubConflictError => "Conflict: " ++ message error
  | CGitHubError => "GitHub API Error: " ++ message error
  end.

(** One case of the [switch]: the contract whose [parse] is applied to
    [params.arguments], and the body of the case, from the validated record
    to the text returned.  The contract is [None] where the case names an
    export that the module of the operation does not have, as
    [branches._CreateBranchSchema]: the expression is [undefined] there. *)
Record Tool : Type := mkTool {
  input : option ztype;
  run : json -> M string
}.

Definition text_of (m : M json) : M string :=
  result <- m ;; ret (JSON_stringify_indent result).

Definition non_blank (v : option string) : bool :=
  match v with
  | Some s => negb (trim s =? "")
  | None => false
  end.

(** Lines 703-711: the credential of the record, else of the environment. *)
Definition resolve_credential (env : Env) (arguments : list (string * json))
  : M (list (string * json)) :=
  if negb (truthy (assoc "github_pat" arguments)) then
    if non_blank (GITHUB_PAT env) then
      ret (set_assoc "github_pat"
             (JStr (match GITHUB_PAT env with Some s => s | None => "" end))
             arguments)
    else if non_blank (GITHUB_PERSONAL_ACCESS_TOKEN env) then
      ret (set_assoc "github_pat"
             (JStr (match GITHUB_PERSONAL_ACCESS_TOKEN env with
                    | Some s => s
                    | None => ""
                    end))
             arguments)
    else throw (Error "GitHub PAT is required")
  else ret arguments.

(** The [catch] of the handler. *)
Definition convert_error {A : Type} (error : exn) : M A :=
  match error with
  | ZodError errors =>
      throw (Error ("Invalid input: " ++ JSON_stringify_issues errors))
  | GitHubFailure e => throw (Error (formatGitHubError e))
  | _ => throw error
  end.

(** The [switch] on [params.name]: every case parses [params.arguments]
    with its contract, then runs its operation; reading [parse] from a
    contract that is [undefined] throws a [TypeError]. *)
Definition dispatch (tools : list (string * Tool)) (name : string)
  (arguments : list (string * json)) : M string :=
  match assoc name tools with
  | Some tool =>
      match input tool with
      | Some contract =>
          args <- parse_input contract (JObj arguments) ;;
          run tool args
      | None =>
          throw (TypeError "Cannot read properties of undefined (reading 'parse')")
      end
  | None => throw (Error ("Unknown tool: " ++ name))
  end.

(** The [try] block of the handler of [CallToolRequestSchema]. *)
Definition handle (tools : list (string * Tool)) (env : Env) (name : string)
  (arguments : option (list (string * json))) : M string :=
  match arguments with
  | None => throw (Error "Arguments are required")
  | Some given =>
      arguments' <- resolve_credential env given ;;
      dispatch tools name arguments'
  end.

(** The handler: the [try] block under the [catch]. *)
Definition CallTool (tools : list (string * Tool)) (env : Env) (name : string)
  (arguments : option (list (string * json))) : M string :=
  try_catch (handle tools env name arguments) convert_error.

(** The cases whose contract and operation are both among the sources. *)
Definition tools : list (string * Tool) :=
  [ ("create_or_update_file",
     mkTool (Some _CreateOrUpdateFileSchema) (fun args =>
       text_of (createOrUpdateFile
                  (field_string args "github_pat") (field_string args "owner")
                  (field_string args "repo") (field_string args "path")
                  (field_string args "content") (field_string args "message")
                  (field_string args "branch")
                  (field_optional_string args "sha"))));
    ("push_files",
     mkTool (Some _PushFilesSchema) (fun args =>
       text_of (pushFiles
                  (field_string args "github_pat") (field_string args "owner")
                  (field_string args "repo") (field_string args "branch")
                  (field_files args "files") (field_string args "message"))));
    ("get_issue",
     mkTool (Some _GetIssueSchema) (fun args =>
       text_of (getIssue
                  (field_string args "github_pat") (field_string args "owner")
                  (field_string args "repo") (field_number args "issue_number"))));
    ("list_issues",
     mkTool (Some _ListIssuesOptionsSchema) (fun args =>
       text_of (listIssues
                  (field_string args "github_pat") (field_string args "owner")
                  (field_string args "repo")
                  (JObj (rest_of args ["github_pat"; "owner"; "repo"])))));
    ("upload_release_asset",
     mkTool (Some _UploadReleaseAssetSchema) (fun args =>
       text_of (uploadReleaseAsset
                  (field_string args "github_pat") (field_string args "owner")
                  (field_string args "repo") (field_number args "release_id")
                  (field_string args "name") (field_string args "content")
                  (field_string args "content_type")
                  (field_optional_string args "label"))));
    ("create_commit_status",
     mkTool (Some _CreateCommitStatusSchema) (fun args =>
       text_of (createCommitStatus
                  (field_string args "github_pat") (field_string args "owner")
                  (field_string args "repo") (field_string args "sha")
                  (field_string args "state")
                  (rest_of args ["github_pat"; "owner"; "repo"; "sha"; "state"])))) ].

End Server.

(** ** The vocabulary of the properties *)

Section Vocabulary.
Context {SV : Service} {PF : Platform} {CM : Common}.

(** A value that an enumeration does not list. *)
Definition outside_enum (v : json) (vs : list string) : bool :=
  match v with
  | JStr s => negb (in_enum s vs)
  | _ => true
  end.

(** A credential is at hand: a truthy [github_pat] in the record, or one of
    the two environment variables with more than white space in it. *)
Definition credential_available (env : Env) (given : list (string * json)) : bool :=
  (truthy (assoc "github_pat" given) || non_blank (GITHUB_PAT env)
   || non_blank (GITHUB_PERSONAL_ACCESS_TOKEN env))%bool.

(** The failure the handler reports for a record its contract rejects. *)
Definition InvalidArgument (r : Result string) : Prop :=
  exists issues, issues <> [] /\
    r = Throw (Error ("Invalid input: " ++ JSON_stringify_issues issues)).

Definition MissingCredential (r : Result string) : Prop :=
  r = Throw (Error "GitHub PAT is required").

(** The credential the handler goes on with, if any. *)
Definition credential_resolved (env : Env) (given : list (string * json))
  (w : World) : option json :=
  match resolve_credential env given w with
  | (Return resolved, _) => assoc "github_pat" resolved
  | (Throw _, _) => None
  end.

(** The resolution order in the words of the specification: the field of
    the record if present, otherwise the first of the two variables that is
    set and not empty, otherwise none. *)
Definition set_and_non_empty (v : option string) : bool :=
  match v with
  | Some s => negb (s =? "")
  | None => false
  end.

Definition credential_as_specified (env : Env) (given : list (string * json))
  : option json :=
  match assoc "github_pat" given with
  | Some v => Some v
  | None =>
      if set_and_non_empty (GITHUB_PAT env) then option_map JStr (GITHUB_PAT env)
      else if set_and_non_empty (GITHUB_PERSONAL_ACCESS_TOKEN env)
           then option_map JStr (GITHUB_PERSONAL_ACCESS_TOKEN env)
      else None
  end.


(** What [githubRequest] throws for a reply that is a failure. *)
Definition raised_by (r : Reply) : exn :=
  match r with
  | NetworkFailure reason => TypeError reason
  | Answer a =>
      GitHubFailure (createGitHubError (resp_status a) (resp_headers a) (resp_body a))
  end.

(** The service answering a list of requests one after the other: the
    exchanges, and the state it is left in. *)
Fixpoint run_requests (s : Remote) (rs : list Request)
  : list (Request * Reply) * Remote :=
  match rs with
  | [] => ([], s)
  | r :: rest =>
      let '(reply, s') := serve s r in
      let '(made, s'') := run_requests s' rest in
      ((r, reply) :: made, s'')
  end.

(** The four requests of a push, given the validated reference, tree and
    commit that the first three return. *)
Definition pushFiles_plan (github_pat owner repo branch : string)
  (files : list FileOperation) (message : string) (ref tree commit : json)
  : list Request :=
  [ mkRequest github_pat (repos owner repo ++ "/git/refs/heads/" ++ branch)
      "GET" None [];
    mkRequest github_pat (repos owner repo ++ "/git/trees") "POST"
      (Some (JsonBody
               (JObj [("tree",
                       JArr (map (fun file =>
                                    JObj [("path", JStr (file_path file));
                                          ("mode", JStr "100644");
                                          ("type", JStr "blob");
                                          ("content", JStr (file_content file))])
                                 files));
                      ("base_tree", JStr (reference_object_sha ref))])))
      [];
    mkRequest github_pat (repos owner repo ++ "/git/commits") "POST"
      (Some (JsonBody
               (JObj [("message", JStr message); ("tree", JStr (tree_sha tree));
                      ("parents", JArr [JStr (reference_object_sha ref)])])))
      [];
    mkRequest github_pat (repos owner repo ++ "/git/refs/heads/" ++ branch)
      "PATCH"
      (Some (JsonBody (JObj [("sha", JStr (commit_sha commit));
                             ("force", JBool true)])))
      [] ].

(** The contract that validates the reply to each call of a push, the
    calls counted from 1. *)
Definition push_contract (k : nat) : json -> list ZodIssue + json :=
  match k with
  | 1%nat => GitHubReferenceSchema
  | 2%nat => GitHubTreeSchema
  | 3%nat => GitHubCommitSchema
  | _ => GitHubReferenceSchema
  end.

(** The two probes for the default branch. *)
Definition probe (github_pat owner repo name : string) : Request :=
  mkRequest github_pat (repos owner repo ++ "/git/refs/heads/" ++ name) "GET" None [].

(** The request that writes a file when no revision is known: the body has
    no [sha]. *)
Definition put_without_sha (github_pat owner repo path content message
  branch : string) : Request :=
  mkRequest github_pat (repos owner repo ++ "/contents/" ++ path) "PUT"
    (Some (JsonBody
             (JObj [("message", JStr message);
                    ("content", JStr (Buffer_toString_base64 (Buffer_from_utf8 content)));
                    ("branch", JStr branch)])))
    [].

(** The arguments of [getFileContents] with the flag set or omitted. *)
Definition with_encoded (a : GetFileContentsArgs) (encoded : option bool)
  : GetFileContentsArgs :=
  mkGetFileContents (gfc_github_pat a) (gfc_owner a) (gfc_repo a) (gfc_path a)
    encoded (gfc_branch a).

(** What the API returns for the contents of a path, once validated. *)
Definition fetch_contents (a : GetFileContentsArgs) : M json :=
  bind (githubRequest (gfc_github_pat a)
          (let url := repos (gfc_owner a) (gfc_repo a) ++ "/contents/" ++ gfc_path a in
           if truthy (option_map JStr (gfc_branch a))
           then url ++ "?ref=" ++ match gfc_branch a with Some b => b | None => "" end
           else url)
          GET)
       (parse GitHubContentSchema).

(** The two requests of an asset upload. *)
Definition fetch_release (github_pat owner repo : string) (release_id : Z)
  : Request :=
  mkRequest github_pat
    (repos owner repo ++ "/releases/" ++ Number_toString release_id) "GET" None [].

Definition post_asset (github_pat url content content_type : string) : Request :=
  mkRequest github_pat url "POST"
    (Some (RawBody (Buffer_toString_utf8 (Buffer_from_base64 content))))
    [("Content-Type", content_type)].

(** Where an asset is posted: the upload URL of the release, its template
    taken off, with the name added to its query and, after it, the label
    when there is one that is not empty. *)
Definition asset_url (url : URL) (name : string) (label : option string)
  : string :=
  let named := searchParams_append url "name" name in
  match label with
  | Some l =>
      if l =? "" then URL_toString named
      else URL_toString (searchParams_append named "label" l)
  | None => URL_toString named
  end.


End Vocabulary.

(** ** More of the operations and of the handler *)

(** A contract written with zod, as the validator its [parse] runs. *)
Definition zod_contract (t : ztype) (x : json) : list ZodIssue + json :=
  match validate t [] (Some x) with
  | inl issues => inl issues
  | inr (Some v) => inr v
  | inr None => inr JNull
  end.

(** operations/releases.ts *)
Definition TagSchema : ztype :=
  ZObject [("ref", ZString); ("node_id", ZString); ("url", ZString);
           ("object", ZObject [("sha", ZString); ("type", ZString);
                               ("url", ZString)])].

Definition CreateTagSchema : ztype :=
  ZObject [("owner", ZString); ("repo", ZString); ("ref", ZString);
           ("sha", ZString)].
Definition _CreateTagSchema : ztype := extend CreateTagSchema github_pat_field.

(** operations/rate_limit.ts *)
Definition RateLimitResourceSchema : ztype :=
  ZObject [("limit", ZNumber); ("used", ZNumber); ("remaining", ZNumber);
           ("reset", ZNumber)].

Definition rate_limit_resources : list string :=
  ["core"; "search"; "graphql"; "integration_manifest"; "code_scanning_upload";
   "actions_runner_registration"; "scim"; "dependency_snapshots"].

Definition RateLimitSchema : ztype :=
  ZObject [("resources",
            ZObject [("core", RateLimitResourceSchema);
                     ("search", RateLimitResourceSchema);
                     ("graphql", RateLimitResourceSchema);
                     ("integration_manifest", RateLimitResourceSchema);
                     ("code_scanning_upload", RateLimitResourceSchema);
                     ("actions_runner_registration", RateLimitResourceSchema);
                     ("scim", RateLimitResourceSchema);
                     ("dependency_snapshots", RateLimitResourceSchema)]);
           ("rate", RateLimitResourceSchema)].

(** operations/issues.ts *)
Definition IssueCommentSchema : ztype :=
  ZObject [("owner", ZString); ("repo", ZString); ("issue_number", ZNumber);
           ("body", ZString)].
Definition _IssueCommentSchema : ztype :=
  extend IssueCommentSchema github_pat_field.

Definition CreateIssueOptionsSchema_shape : list (string * ztype) :=
  [("title", ZString); ("body", ZOptional ZString);
   ("assignees", ZOptional (ZArray ZString)); ("milestone", ZOptional ZNumber);
   ("labels", ZOptional (ZArray ZString))].

Definition CreateIssueOptionsSchema : ztype :=
  ZObject CreateIssueOptionsSchema_shape.

(** [{ owner, repo, ...CreateIssueOptionsSchema.shape }] *)
Definition CreateIssueSchema : ztype :=
  ZObject ([("owner", ZString); ("repo", ZString)]
           ++ CreateIssueOptionsSchema_shape)%list.
Definition _CreateIssueSchema : ztype :=
  extend CreateIssueSchema github_pat_field.

Definition UpdateIssueOptionsSchema : ztype :=
  ZObject [("owner", ZString); ("repo", ZString); ("issue_number", ZNumber);
           ("title", ZOptional ZString); ("body", ZOptional ZString);
           ("assignees", ZOptional (ZArray ZString));
           ("milestone", ZOptional ZNumber);
           ("labels", ZOptional (ZArray ZString));
           ("state", ZOptional (ZEnum ["open"; "closed"]))].
Definition _UpdateIssueOptionsSchema : ztype :=
  extend UpdateIssueOptionsSchema github_pat_field.

Section MoreCode.
Context {SV : Service} {PF : Platform} {CM : Common}.
Local Open Scope op_scope.

(** operations/releases.ts *)
Definition createTag (github_pat owner repo ref sha : string) : M json :=
  let formattedRef :=
    if String.prefix "refs/" ref then ref else "refs/tags/" ++ ref in
  response <- githubRequest github_pat (repos owner repo ++ "/git/refs")
                (mkOptions (Some "POST")
                   (Some (JsonBody (JObj [("ref", JStr formattedRef);
                                          ("sha", JStr sha)])))
                   []) ;;
  parse (zod_contract TagSchema) response.

(** operations/rate_limit.ts *)
Definition getRateLimit (github_pat : string) : M json :=
  response <- githubRequest github_pat "https://api.github.com/rate_limit" GET ;;
  parse (zod_contract RateLimitSchema) response.

(** operations/issues.ts *)
Definition addIssueComment (github_pat owner repo : string) (issue_number : Z)
  (body : string) : M json :=
  githubRequest github_pat
    (repos owner repo ++ "/issues/" ++ Number_toString issue_number ++ "/comments")
    (mkOptions (Some "POST") (Some (JsonBody (JObj [("body", JStr body)]))) []).

Definition createIssue (github_pat owner repo : string)
  (options : list (string * json)) : M json :=
  githubRequest github_pat (repos owner repo ++ "/issues")
    (mkOptions (Some "POST") (Some (JsonBody (JObj options))) []).

Definition updateIssue (github_pat owner repo : string) (issue_number : Z)
  (options : list (string * json)) : M json :=
  githubRequest github_pat
    (repos owner repo ++ "/issues/" ++ Number_toString issue_number)
    (mkOptions (Some "PATCH") (Some (JsonBody (JObj options))) []).

(** operations/commits.ts *)
Definition listCommits (github_pat owner repo : string) (page perPage : option Z)
  (sha : option string) : M json :=
  githubRequest github_pat
    (buildUrl (repos owner repo ++ "/commits")
       [("page", option_map Number_toString page);
        ("per_page", option_map Number_toString perPage);
        ("sha", sha)])
    GET.

(** operations/branches.ts *)
Definition updateBranch (github_pat owner repo branch sha : string) : M json :=
  response <- githubRequest github_pat
                (repos owner repo ++ "/git/refs/heads/" ++ branch)
                (mkOptions (Some "PATCH")
                   (Some (JsonBody (JObj [("sha", JStr sha); ("force", JBool true)])))
                   []) ;;
  parse GitHubReferenceSchema response.

(** src/index.ts: more cases of the [switch].  The cases [create_branch]
    and [list_commits] parse [branches._CreateBranchSchema] and
    [commits._ListCommitsSchema], which operations/branches.ts and
    operations/commits.ts do not export; so do the cases [search_code],
    [search_issues] and [search_users] with the contracts of
    operations/search.ts. *)
Definition more_tools : list (string * Tool) :=
  [ ("create_issue",
     mkTool (Some _CreateIssueSchema) (fun args =>
       text_of (createIssue
                  (field_string args "github_pat") (field_string args "owner")
                  (field_string args "repo")
                  (rest_of args ["github_pat"; "owner"; "repo"]))));
    ("update_issue",
     mkTool (Some _UpdateIssueOptionsSchema) (fun args =>
       text_of (updateIssue
                  (field_string args "github_pat") (field_string args "owner")
                  (field_string args "repo") (field_number args "issue_number")
                  (rest_of args ["github_pat"; "owner"; "repo"; "issue_number"]))));
    ("add_issue_comment",
     mkTool (Some _IssueCommentSchema) (fun args =>
       text_of (addIssueComment
                  (field_string args "github_pat") (field_string args "owner")
                  (field_string args "repo") (field_number args "issue_number")
                  (field_string args "body"))));
    ("create_tag",
     mkTool (Some _CreateTagSchema) (fun args =>
       text_of (createTag
                  (field_string args "github_pat") (field_string args "owner")
                  (field_string args "repo") (field_string args "ref")
                  (field_string args "sha"))));
    ("get_rate_limit",
     mkTool (Some _GetRateLimitSchema) (fun args =>
       text_of (getRateLimit (field_string args "github_pat"))));
    ("create_branch",
     mkTool None (fun args =>
       text_of (createBranchFromRef
                  (field_string args "github_pat") (field_string args "owner")
                  (field_string args "repo") (field_string args "branch")
                  (field_optional_string args "from_branch"))));
    ("list_commits",
     mkTool None (fun args =>
       text_of (listCommits
                  (field_string args "github_pat") (field_string args "owner")
                  (field_string args "repo") (field_optional_number args "page")
                  (field_optional_number args "perPage")
                  (field_optional_string args "sha")))) ].

(** The requests the properties below speak of. *)
Definition create_ref_request (github_pat owner repo ref sha : string) : Request :=
  mkRequest github_pat (repos owner repo ++ "/git/refs") "POST"
    (Some (JsonBody (JObj [("ref", JStr ref); ("sha", JStr sha)]))) [].

Definition put_with_sha (github_pat owner repo path content message branch
  : string) (sha : json) : Request :=
  mkRequest github_pat (repos owner repo ++ "/contents/" ++ path) "PUT"
    (Some (JsonBody
             (JObj [("message", JStr message);
                    ("content", JStr (Buffer_toString_base64 (Buffer_from_utf8 content)));
                    ("branch", JStr branch); ("sha", sha)])))
    [].

Definition get_issue_request (github_pat owner repo : string) (n : Z) : Request :=
  mkRequest github_pat (repos owner repo ++ "/issues/" ++ Number_toString n)
    "GET" None [].

Definition rate_limit_request (github_pat : string) : Request :=
  mkRequest github_pat "https://api.github.com/rate_limit" "GET" None [].

(** The parsed body of a reply, as [githubRequest] returns it. *)
Definition body_of (a : Response) : json :=
  match resp_body a with Some j => j | None => JObj [] end.

(** The world after one more call. *)
Definition after_call (w : World) (remote' : Remote) (request : Request)
  (reply : Reply) : World :=
  mkWorld remote' (calls w ++ [(request, reply)])%list (console w).

End MoreCode.

(** A file of a push as the JSON object the caller sends. *)
Definition file_json (f : FileOperation) : json :=
  JObj [("path", JStr (file_path f)); ("content", JStr (file_content f))].

(** The keys of an object literal. *)
Definition keys {A : Type} (kvs : list (string * A)) : list string := map fst kvs.

Definition member (k : string) (ks : list string) : bool :=
  existsb (String.eqb k) ks.

Definition subset (xs ys : list string) : bool :=
  forallb (fun x => member x ys) xs.

Fixpoint distinct (xs : list string) : bool :=
  match xs with
  | [] => true
  | x :: rest => (negb (member x rest) && distinct rest)%bool
  end.

(** src/index.ts: the name and the description of every entry of the list
    that the handler of [ListToolsRequestSchema] returns, in its order (the
    JSON form of the input schema of each entry is left out), and the labels
    of the cases of the [switch] of the other handler, in their order. *)
Definition listed_tools : list (string * string) :=
  [ ("create_or_update_file",
     "Create or update a single file in a GitHub repository");
    ("search_repositories",
     "Search for GitHub repositories");
    ("create_repository",
     "Create a new GitHub repository in your account");
    ("get_file_contents",
     "Get the contents of a file or directory from a GitHub repository");
    ("push_files",
     "Push multiple files to a GitHub repository in a single commit");
    ("create_issue",
     "Create a new issue in a GitHub repository");
    ("create_pull_request",
     "Create a new pull request in a GitHub repository");
    ("fork_repository",
     "Fork a GitHub repository to your account or specified organization");
    ("create_branch",
     "Create a new branch in a GitHub repository");
    ("list_commits",
     "Get list of commits of a branch in a GitHub repository");
    ("list_issues",
     "List issues in a GitHub repository with filtering options");
    ("update_issue",
     "Update an existing issue in a GitHub repository");
    ("add_issue_comment",
     "Add a comment to an existing issue");
    ("search_code",
     "Search for code across GitHub repositories");
    ("search_issues",
     "Search for issues and pull requests across GitHub repositories");
    ("search_users",
     "Search for users on GitHub");
    ("get_issue",
     "Get details of a specific issue in a GitHub repository.");
    ("create_release",
     "Create a new release in a GitHub repository");
    ("list_releases",
     "List releases for a GitHub repository");
    ("delete_release",
     "Delete a release from a GitHub repository");
    ("get_release_asset",
     "Get a release asset from a GitHub repository");
    ("upload_release_asset",
     "Upload an asset to a GitHub release");
    ("create_tag",
     "Create a new tag in a GitHub repository");
    ("create_pull_request_review",
     "Create a review for a pull request");
    ("submit_pull_request_review",
     "Submit a pull request review (approve, request changes, or comment)");
    ("dismiss_pull_request_review",
     "Dismiss a pull request review");
    ("create_commit_status",
     "Create a status for a commit (build passed/failed, etc.)");
    ("get_commit_statuses",
     "Get statuses for a commit");
    ("get_combined_status",
     "Get the combined status for a commit");
    ("get_rate_limit",
     "Check the current rate limit status");
    ("create_gist",
     "Create a new gist");
    ("list_gists",
     "List gists for the authenticated user");
    ("get_gist",
     "Get a specific gist");
    ("list_projects",
     "List projects for a repository");
    ("create_project",
     "Create a new project for a repository");
    ("list_project_columns",
     "List columns for a project");
    ("create_project_column",
     "Create a new column for a project");
    ("create_project_card",
     "Create a new card in a project column");
    ("list_org_packages",
     "List packages for an organization");
    ("list_user_packages",
     "List packages for a user");
    ("list_repo_packages",
     "List packages for a repository");
    ("get_org_package",
     "Get a package for an organization");
    ("get_user_package",
     "Get a package for a user");
    ("get_repo_package",
     "Get a package for a repository");
    ("get_pull_request_diff",
     "Get the diff for a pull request") ].

Definition switch_labels : list string :=
  [ "fork_repository";
    "create_branch";
    "search_repositories";
    "create_repository";
    "get_file_contents";
    "create_or_update_file";
    "push_files";
    "create_issue";
    "create_pull_request";
    "search_code";
    "search_issues";
    "search_users";
    "list_issues";
    "update_issue";
    "add_issue_comment";
    "list_commits";
    "get_issue";
    "create_release";
    "list_releases";
    "delete_release";
    "get_release_asset";
    "upload_release_asset";
    "create_tag";
    "create_pull_request_review";
    "submit_pull_request_review";
    "dismiss_pull_request_review";
    "create_commit_status";
    "get_commit_statuses";
    "get_combined_status";
    "get_rate_limit";
    "create_gist";
    "list_gists";
    "get_gist";
    "list_projects";
    "create_project";
    "list_project_columns";
    "create_project_column";
    "create_project_card";
    "list_org_packages";
    "list_user_packages";
    "list_repo_packages";
    "get_org_package";
    "get_user_package";
    "get_repo_package";
    "get_pull_request_diff" ].

(** ** A small runtime to execute the model *)

(** The definitions of this module give the classes above one concrete
    reading, so that the operations can be run on examples: a service that
    answers from a script, a base64 codec, a compact JSON printer, a URL as
    its text, and contracts that name only the fields the operations read. *)
Module Demo.

(** A service that replies with the next entry of a script, whatever the
    request, and stops answering when the script is over. *)
#[export] Instance scripted : Service := {|
  Remote := list Reply;
  serve := fun script _ =>
    match script with
    | [] => (NetworkFailure "fetch failed", [])
    | reply :: rest => (reply, rest)
    end
|}.

Definition alphabet : string :=
  "ABCDEFGHIJKLMNOPQRSTUVWXYZabcdefghijklmnopqrstuvwxyz0123456789+/".

Fixpoint index_of (c : ascii) (s : string) (i : N) : option N :=
  match s with
  | EmptyString => None
  | String c' rest => if Ascii.eqb c c' then Some i else index_of c rest (i + 1)%N
  end.

Definition sextet (c : ascii) : option N :=
  if Ascii.eqb c "-" then Some 62%N
  else if Ascii.eqb c "_" then Some 63%N
  else index_of c alphabet 0%N.

(** The sextets of a base64 text: reading stops at the padding, characters
    outside the alphabet are skipped. *)
Fixpoint sextets (s : string) : list N :=
  match s with
  | EmptyString => []
  | String c rest =>
      if Ascii.eqb c "=" then []
      else match sextet c with
           | Some n => n :: sextets rest
           | None => sextets rest
           end
  end.

Definition octet (n : N) : ascii := ascii_of_N (n mod 256).

Fixpoint octets (xs : list N) : list ascii :=
  match xs with
  | a :: b :: c :: d :: rest =>
      let n := (a * 262144 + b * 4096 + c * 64 + d)%N in
      octet (n / 65536) :: octet (n / 256) :: octet n :: octets rest
  | [a; b; c] =>
      let n := (a * 262144 + b * 4096 + c * 64)%N in
      [octet (n / 65536); octet (n / 256)]
  | [a; b] =>
      let n := (a * 262144 + b * 4096)%N in
      [octet (n / 65536)]
  | _ => []
  end.

Definition from_base64 (s : string) : list ascii := octets (sextets s).

Definition digit (n : N) : ascii :=
  match String.get (N.to_nat (n mod 64)) alphabet with
  | Some c => c
  | None => "="%char
  end.

Fixpoint to_base64 (bytes : list ascii) : string :=
  match bytes with
  | a :: b :: c :: rest =>
      let n := (N_of_ascii a * 65536 + N_of_ascii b * 256 + N_of_ascii c)%N in
      String (digit (n / 262144)) (String (digit (n / 4096))
        (String (digit (n / 64)) (String (digit n) (to_base64 rest))))
  | [a; b] =>
      let n := (N_of_ascii a * 65536 + N_of_ascii b * 256)%N in
      String (digit (n / 262144)) (String (digit (n / 4096))
        (String (digit (n / 64)) "="))
  | [a] =>
      let n := (N_of_ascii a * 65536)%N in
      String (digit (n / 262144)) (String (digit (n / 4096)) "==")
  | [] => ""
  end.

Definition quote : string := String (ascii_of_nat 34) EmptyString.

Fixpoint escape (s : string) : string :=
  match s with
  | EmptyString => EmptyString
  | String c rest =>
      if (Ascii.eqb c (ascii_of_nat 34) || Ascii.eqb c (ascii_of_nat 92))%bool
      then String (ascii_of_nat 92) (String c (escape rest))
      else String c (escape rest)
  end.

Definition quoted (s : string) : string := quote ++ escape s ++ quote.

(** The decimal digits of an integer, which is how JavaScript prints an
    integer below 10^21 in magnitude. *)
Definition decimal (n : Z) : string :=
  NilZero.string_of_int (Z.to_int n).

Fixpoint stringify (j : json) : string :=
  match j with
  | JNull => "null"
  | JBool true => "true"
  | JBool false => "false"
  | JNum n => decimal n
  | JStr s => quoted s
  | JArr xs => "[" ++ String.concat "," (map stringify xs) ++ "]"
  | JObj kvs =>
      "{" ++ String.concat ","
               (map (fun kv => quoted (fst kv) ++ ":" ++ stringify (snd kv)) kvs)
      ++ "}"
  end.

Definition path_text (p : path_element) : string :=
  match p with
  | PKey k => quoted k
  | PIndex i => decimal (Z.of_nat i)
  end.

Definition issue_text (i : ZodIssue) : string :=
  "{" ++ quoted "code" ++ ":" ++ quoted (code i) ++ ","
  ++ quoted "expected" ++ ":" ++ quoted (expected i) ++ ","
  ++ quoted "received" ++ ":" ++ quoted (received i) ++ ","
  ++ quoted "path" ++ ":[" ++ String.concat "," (map path_text (path i)) ++ "]}".

Definition has_query (s : string) : bool :=
  match String.index 0 "?" s with Some _ => true | None => false end.

#[export] Instance platform : Platform := {|
  Number_toString := decimal;
  JSON_stringify := stringify;
  JSON_stringify_indent := stringify;
  JSON_stringify_issues := fun issues =>
    "[" ++ String.concat "," (map issue_text issues) ++ "]";
  Date_toISOString := decimal;
  Buffer_from_utf8 := list_ascii_of_string;
  Buffer_from_base64 := from_base64;
  Buffer_toString_utf8 := string_of_list_ascii;
  Buffer_toString_base64 := to_base64;
  URL := string;
  URL_new := fun s => if String.prefix "https://" s then Some s else None;
  searchParams_append := fun u k v =>
    u ++ (if has_query u then "&" else "?") ++ k ++ "=" ++ v;
  URL_toString := fun u => u
|}.

Definition contract (t : ztype) (x : json) : list ZodIssue + json :=
  match validate t [] (Some x) with
  | inl issues => inl issues
  | inr (Some v) => inr v
  | inr None => inr JNull
  end.

Definition with_sha : ztype := ZObject [("sha", ZString)].

Definition reference : ztype :=
  ZObject [("ref", ZString); ("object", with_sha)].

Definition file_content : ztype :=
  ZObject [("type", ZString); ("encoding", ZString); ("name", ZString);
           ("path", ZString); ("content", ZString); ("sha", ZString)].

Definition integer_of (s : string) : option Z :=
  option_map Z.of_int (NilZero.int_of_string s).

#[export] Instance common : Common := {|
  GitHubReferenceSchema := contract reference;
  GitHubTreeSchema := contract with_sha;
  GitHubCommitSchema := contract with_sha;
  GitHubContentSchema := fun x =>
    match x with
    | JArr _ => inr x
    | _ => contract file_content x
    end;
  GitHubCreateUpdateFileResponseSchema :=
    contract (ZObject [("commit", with_sha)]);
  ReleaseAssetSchema := contract (ZObject [("id", ZNumber); ("name", ZString)]);
  CommitStatusSchema := contract (ZObject [("id", ZNumber); ("state", ZString)]);
  reference_object_sha := fun r =>
    match prop r "object" with
    | Some o => field_string o "sha"
    | None => ""
    end;
  tree_sha := fun t => field_string t "sha";
  commit_sha := fun c => field_string c "sha";
  buildUrl := fun base params =>
    fold_left (fun u kv =>
                 match snd kv with
                 | Some v => u ++ (if has_query u then "&" else "?") ++ fst kv ++ "=" ++ v
                 | None => u
                 end) params base;
  errorMessage := fun _ b =>
    match b with
    | Some o => field_string o "message"
    | None => ""
    end;
  rateLimitRemaining := fun headers =>
    match assoc "x-ratelimit-remaining" headers with
    | Some v => integer_of v
    | None => None
    end;
  rateLimitReset := fun headers _ =>
    match assoc "x-ratelimit-reset" headers with
    | Some v => match integer_of v with Some s => (s * 1000)%Z | None => 0%Z end
    | None => 0%Z
    end
|}.

(** The world before any call, over a script of replies. *)
Definition start (script : list Reply) : World := mkWorld script [] [].

Definition reply (st : Z) (b : json) : Reply := Answer (mkResponse st [] (Some b)).

Definition no_env : Env := mkEnv None None.

(** A reference and a file as the API returns them. *)
Definition a_reference : json :=
  JObj [("ref", JStr "refs/heads/develop"); ("object", JObj [("sha", JStr "s0")])].

Definition a_file : json :=
  JObj [("type", JStr "file"); ("encoding", JStr "base64");
        ("name", JStr "a.txt"); ("path", JStr "a.txt");
        ("content", JStr "aGVsbG8="); ("sha", JStr "b6fc4c6")].

(** The rate limits of a reply that does not name the [scim] resource. *)
Definition a_resource : json :=
  JObj [("limit", JNum 5000); ("used", JNum 1); ("remaining", JNum 4999);
        ("reset", JNum 1700000000)].

Definition limits_without_scim : json :=
  JObj [("resources",
         JObj [("core", a_resource); ("search", a_resource);
               ("graphql", a_resource); ("integration_manifest", a_resource);
               ("code_scanning_upload", a_resource);
               ("actions_runner_registration", a_resource);
               ("dependency_snapshots", a_resource)]);
        ("rate", a_resource)].

End Demo.

(** * Properties *)

(** ** Validation *)

Lemma validate_object_shape :
  forall sh p kvs,
    validate (ZObject sh) p (Some (JObj kvs)) =
    match validate_shape sh p kvs with
    | inl e => inl e
    | inr out => inr (Some (JObj out))
    end.
Proof.
  intros sh p kvs. simpl.
  match goal with
  | |- match ?f sh with _ => _ end = _ =>
      assert (E : f sh = validate_shape sh p kvs)
  end.
  { induction sh as [|[k tk] rest IH]; simpl; [reflexivity|].
    rewrite IH. reflexivity. }
  rewrite E. reflexivity.
Qed.

Lemma validate_undefined_required :
  forall t p, is_optional t = false ->
    exists issues, issues <> [] /\ validate t p None = inl issues.
Proof.
  intros t p H. destruct t; simpl in *; try discriminate;
    eexists; (split; [|reflexivity]); discriminate.
Qed.

Lemma validate_outside_enum :
  forall vs p v, outside_enum v vs = true ->
    exists issues, issues <> [] /\ validate (ZEnum vs) p (Some v) = inl issues.
Proof.
  intros vs p v H. destruct v; simpl in *;
    try (eexists; (split; [|reflexivity]); discriminate).
  destruct (in_enum s vs); [discriminate|].
  eexists; (split; [|reflexivity]); discriminate.
Qed.

Lemma add_property_rejects_left :
  forall k e rest, e <> [] ->
    exists issues, issues <> [] /\ add_property k (inl e) rest = inl issues.
Proof.
  intros k e rest He. destruct rest as [e2|kvs]; simpl.
  - exists (e ++ e2)%list. split; [|reflexivity].
    destruct e; [contradiction|discriminate].
  - exists e. split; [assumption|reflexivity].
Qed.

Lemma add_property_rejects_right :
  forall k r e, e <> [] ->
    exists issues, issues <> [] /\ add_property k r (inl e) = inl issues.
Proof.
  intros k r e He. destruct r as [e1|[v|]]; simpl.
  - exists (e1 ++ e)%list. split; [|reflexivity].
    destruct e1; simpl; [assumption|discriminate].
  - exists e. split; [assumption|reflexivity].
  - exists e. split; [assumption|reflexivity].
Qed.

(** A shape rejects a record as soon as the contract of one of its keys
    rejects the value the record has under that key. *)
Lemma validate_shape_rejects :
  forall sh k tk p kvs,
    assoc k sh = Some tk ->
    (exists e, e <> [] /\ validate tk (p ++ [PKey k])%list (assoc k kvs) = inl e) ->
    exists issues, issues <> [] /\ validate_shape sh p kvs = inl issues.
Proof.
  induction sh as [|[k' t'] rest IH]; intros k tk p kvs Hk Hbad; simpl in *.
  - discriminate.
  - destruct (String.eqb_spec k k') as [->|Hne].
    + injection Hk as ->. destruct Hbad as (e & He & Hv). rewrite Hv.
      apply add_property_rejects_left; assumption.
    + destruct (IH k tk p kvs Hk Hbad) as (e & He & Hv). rewrite Hv.
      apply add_property_rejects_right; assumption.
Qed.

Lemma add_element_rejects_left :
  forall e rest, e <> [] ->
    exists issues, issues <> [] /\ add_element (inl e) rest = inl issues.
Proof.
  intros e rest He. destruct rest as [e2|xs]; simpl.
  - exists (e ++ e2)%list. split; [|reflexivity].
    destruct e; [contradiction|discriminate].
  - exists e. split; [assumption|reflexivity].
Qed.

Lemma add_element_rejects_right :
  forall r e, e <> [] ->
    exists issues, issues <> [] /\ add_element r (inl e) = inl issues.
Proof.
  intros r e He. destruct r as [e1|[v|]]; simpl.
  - exists (e1 ++ e)%list. split; [|reflexivity].
    destruct e1; simpl; [assumption|discriminate].
  - exists e. split; [assumption|reflexivity].
  - exists e. split; [assumption|reflexivity].
Qed.

(** Induction on a contract, with the contracts of the keys of a shape. *)
Lemma ztype_nested_ind :
  forall P : ztype -> Prop,
    P ZString -> P ZNumber -> P ZBoolean -> (forall vs, P (ZEnum vs)) ->
    (forall element, P element -> P (ZArray element)) ->
    (forall element, P element -> P (ZRecord element)) ->
    (forall shape, Forall (fun kt => P (snd kt)) shape -> P (ZObject shape)) ->
    (forall inner, P inner -> P (ZOptional inner)) ->
    forall t, P t.
Proof.
  intros P Hs Hn Hb He Ha Hr Ho Hopt. fix IH 1. intros t.
  destruct t as [| | |vs|element|element|shape|inner].
  - exact Hs.
  - exact Hn.
  - exact Hb.
  - apply He.
  - apply Ha, IH.
  - apply Hr, IH.
  - apply Ho. induction shape as [|[k tk] rest IHrest]; constructor.
    + apply IH.
    + exact IHrest.
  - apply Hopt, IH.
Qed.

(** A contract rejects a value that lacks a field it requires, at whatever
    depth the field is missing. *)
Lemma validate_lacks_required :
  forall t p v, lacks_required t v = true ->
    exists issues, issues <> [] /\ validate t p v = inl issues.
Proof.
  intros t. induction t using ztype_nested_ind; intros p v Hl.
  - destruct v as [x|]; simpl in Hl; [discriminate|].
    eexists; (split; [|reflexivity]); discriminate.
  - destruct v as [x|]; simpl in Hl; [discriminate|].
    eexists; (split; [|reflexivity]); discriminate.
  - destruct v as [x|]; simpl in Hl; [discriminate|].
    eexists; (split; [|reflexivity]); discriminate.
  - destruct v as [x|]; simpl in Hl; [discriminate|].
    eexists; (split; [|reflexivity]); discriminate.
  - destruct v as [x|]; simpl in Hl;
      [|eexists; (split; [|reflexivity]); discriminate].
    destruct x as [| | | |xs|]; try discriminate. simpl.
    match goal with
    | |- context [?f xs 0%nat] =>
        assert (E : forall i, exists e, e <> [] /\ f xs i = inl e)
    end.
    { induction xs as [|x rest IHxs]; intros i; simpl in Hl; [discriminate|].
      destruct (lacks_required t (Some x)) eqn:Hx; simpl in Hl.
      - destruct (IHt (p ++ [PIndex i])%list (Some x) Hx) as (e & He & ->).
        apply add_element_rejects_left; assumption.
      - destruct (IHxs Hl (S i)) as (e & He & ->).
        apply add_element_rejects_right; assumption. }
    destruct (E 0%nat) as (e & He & ->). exists e. split; [assumption|reflexivity].
  - destruct v as [x|]; simpl in Hl;
      [|eexists; (split; [|reflexivity]); discriminate].
    destruct x as [| | | | |kvs]; try discriminate. simpl.
    match goal with
    | |- context [?f kvs] =>
        assert (E : exists e, e <> [] /\ f kvs = inl e)
    end.
    { induction kvs as [|[k x] rest IHkvs]; simpl in Hl; [discriminate|].
      destruct (lacks_required t (Some x)) eqn:Hx; simpl in Hl.
      - destruct (IHt (p ++ [PKey k])%list (Some x) Hx) as (e & He & ->).
        apply add_property_rejects_left; assumption.
      - destruct (IHkvs Hl) as (e & He & ->).
        apply add_property_rejects_right; assumption. }
    destruct E as (e & He & ->). exists e. split; [assumption|reflexivity].
  - destruct v as [x|]; simpl in Hl;
      [|eexists; (split; [|reflexivity]); discriminate].
    destruct x as [| | | | |kvs]; try discriminate.
    rewrite validate_object_shape.
    assert (E : exists e, e <> [] /\ validate_shape shape p kvs = inl e).
    { induction shape as [|[k tk] rest IHshape]; [discriminate|].
      inversion H as [|? ? Hhead Htail]; subst. cbn [snd] in Hhead.
      cbn [validate_shape].
      destruct (lacks_required tk (assoc k kvs)) eqn:Hk; simpl in Hl.
      - destruct (Hhead (p ++ [PKey k])%list (assoc k kvs) Hk) as (e & He & ->).
        apply add_property_rejects_left; assumption.
      - destruct (IHshape Htail Hl) as (e & He & ->).
        apply add_property_rejects_right; assumption. }
    destruct E as (e & He & ->). exists e. split; [assumption|reflexivity].
  - destruct v as [x|]; simpl in Hl; [|discriminate].
    simpl. apply IHt. exact Hl.
Qed.

Lemma assoc_set_assoc_other :
  forall (A : Type) k k' (v : A) l, k <> k' -> assoc k (set_assoc k' v l) = assoc k l.
Proof.
  intros A k k' v l Hne. induction l as [|[k0 v0] rest IH]; simpl.
  - destruct (String.eqb_spec k k'); [contradiction|reflexivity].
  - destruct (String.eqb_spec k' k0) as [->|H0]; simpl.
    + destruct (String.eqb_spec k k0); [contradiction|reflexivity].
    + destruct (String.eqb_spec k k0); [reflexivity|apply IH].
Qed.

Lemma assoc_set_assoc_same :
  forall (A : Type) k (v : A) l, assoc k (set_assoc k v l) = Some v.
Proof.
  intros A k v l. induction l as [|[k0 v0] rest IH]; simpl.
  - rewrite String.eqb_refl. reflexivity.
  - destruct (String.eqb_spec k k0) as [->|H0]; simpl.
    + rewrite String.eqb_refl. reflexivity.
    + destruct (String.eqb_spec k k0); [contradiction|apply IH].
Qed.

Section Properties.
Context {SV : Service} {PF : Platform} {CM : Common}.
Local Open Scope op_scope.

(** ** The handler *)

Lemma resolve_credential_outcome :
  forall env given,
    exists out : Result (list (string * json)),
      (forall w, resolve_credential env given w = (out, w))
      /\ ((credential_available env given = false
           /\ out = Throw (Error "GitHub PAT is required"))
          \/ (credential_available env given = true
              /\ exists resolved,
                   out = Return resolved
                   /\ forall k, k <> "github_pat" ->
                                assoc k resolved = assoc k given)).
Proof.
  intros env given. unfold resolve_credential, credential_available.
  destruct (truthy (assoc "github_pat" given)); simpl.
  - eexists. split; [intros w; reflexivity|].
    right. split; [reflexivity|]. exists given. split; reflexivity.
  - destruct (non_blank (GITHUB_PAT env)); simpl.
    + eexists. split; [intros w; reflexivity|].
      right. split; [reflexivity|]. eexists. split; [reflexivity|].
      intros k Hk. apply assoc_set_assoc_other; assumption.
    + destruct (non_blank (GITHUB_PERSONAL_ACCESS_TOKEN env)); simpl.
      * eexists. split; [intros w; reflexivity|].
        right. split; [reflexivity|]. eexists. split; [reflexivity|].
        intros k Hk. apply assoc_set_assoc_other; assumption.
      * eexists. split; [intros w; reflexivity|].
        left. split; reflexivity.
Qed.

(** Whatever key of the record its contract rejects, the outcome of the
    handler is settled before the operation of the case and the world come
    into play: the issues of the contract, or the missing credential when
    none is at hand; and the world is left as found. *)
Lemma rejected_key_stops_the_handler :
  forall env name contract given k tk,
    (exists sh, contract = ZObject sh /\ assoc k sh = Some tk) ->
    k <> "github_pat" ->
    (exists e, e <> [] /\ validate tk [PKey k] (assoc k given) = inl e) ->
    exists r : Result string,
      (credential_available env given = true -> InvalidArgument r)
      /\ (credential_available env given = false -> MissingCredential r)
      /\ (forall tools run (w : World),
            assoc name tools = Some (mkTool (Some contract) run) ->
            CallTool tools env name (Some given) w = (r, w)).
Proof.
  intros env name contract given k tk (sh & -> & Hk) Hne Hbad.
  destruct (resolve_credential_outcome env given)
    as (out & Hout & [(Hav & ->)|(Hav & resolved & -> & Hsame)]).
  - exists (Throw (Error "GitHub PAT is required")). repeat split.
    + congruence.
    + intros tools run w _.
      unfold CallTool, try_catch, handle, bind. rewrite Hout. reflexivity.
  - destruct (validate_shape_rejects sh k tk [] resolved Hk) as (e & He & Hv).
    { rewrite (Hsame k Hne). exact Hbad. }
    exists (Throw (Error ("Invalid input: " ++ JSON_stringify_issues e))).
    repeat split.
    + intros _. exists e. split; [assumption|reflexivity].
    + congruence.
    + intros tools run w Htool.
      unfold CallTool, try_catch, handle, bind. rewrite Hout.
      unfold dispatch. rewrite Htool. cbn [input]. unfold bind, parse_input.
      rewrite validate_object_shape, Hv. reflexivity.
Qed.

(** A key that a contract requires and a record does not have is the first
    way of lacking a required field. *)
Lemma missing_key_lacks_required :
  forall k contract given,
    required_in k contract = true -> assoc k given = None ->
    lacks_required_under k contract given = true.
Proof.
  intros k contract given Hreq Habsent.
  unfold required_in in Hreq. unfold lacks_required_under.
  destruct contract as [| | | | | |sh|]; try discriminate.
  destruct (assoc k sh) as [tk|]; [|discriminate].
  rewrite Habsent. destruct tk; exact Hreq.
Qed.

(** A case whose contract is not defined fails in another way: with a
    credential at hand, reading [parse] from [undefined] throws a
    [TypeError], which the handler throws again as it is, whatever the
    record; no call is made. *)
Lemma undefined_contract_is_a_type_error :
  forall tools env name run given (w : World),
    assoc name tools = Some (mkTool None run) ->
    credential_available env given = true ->
    CallTool tools env name (Some given) w
    = (Throw (TypeError "Cannot read properties of undefined (reading 'parse')"),
       w).
Proof.
  intros tools env name run given w Htool Hav.
  destruct (resolve_credential_outcome env given)
    as (out & Hout & [(Hno & ->)|(_ & resolved & -> & _)]); [congruence|].
  unfold CallTool, try_catch, handle, bind. rewrite Hout.
  unfold dispatch. rewrite Htool. reflexivity.
Qed.

(** C3 (as amended).  For every case of the handler whose contract is
    defined, and every record that lacks a field the contract requires
    under a key other than the credential (the key itself, or a required
    field of the value under it, at any depth), the outcome is settled
    without the operation of the case: no call is made, the world is left
    as found, and the failure is the invalid-input error with the issues of
    the contract when a credential is at hand, and the missing-credential
    error, raised first, when none is. *)
Theorem missing_required_field_is_rejected_before_any_call :
  forall env name contract given k,
    lacks_required_under k contract given = true ->
    k <> "github_pat" ->
    exists r : Result string,
      (credential_available env given = true -> InvalidArgument r)
      /\ (credential_available env given = false -> MissingCredential r)
      /\ (forall tools run (w : World),
            assoc name tools = Some (mkTool (Some contract) run) ->
            CallTool tools env name (Some given) w = (r, w)).
Proof.
  intros env name contract given k Hlacks Hne.
  unfold lacks_required_under in Hlacks.
  destruct contract as [| | | | | |sh|]; try discriminate.
  destruct (assoc k sh) as [tk|] eqn:Hk; [|discriminate].
  apply (rejected_key_stops_the_handler env name (ZObject sh) given k tk).
  - exists sh. split; [reflexivity|assumption].
  - assumption.
  - apply validate_lacks_required. exact Hlacks.
Qed.

(** C8 (as amended).  For every case of the handler whose contract is
    defined and has an enumerated key, a record whose value under that key
    is not one of the listed strings has its outcome settled without the
    operation of the case: no call is made, the world is left as found, and
    the failure is the invalid-input error when a credential is at hand,
    and the missing-credential error, raised first, when none is. *)
Theorem value_outside_enumeration_is_rejected :
  forall env name contract given k vs v,
    enum_of k contract = Some vs ->
    k <> "github_pat" ->
    assoc k given = Some v ->
    outside_enum v vs = true ->
    exists r : Result string,
      (credential_available env given = true -> InvalidArgument r)
      /\ (credential_available env given = false -> MissingCredential r)
      /\ (forall tools run (w : World),
            assoc name tools = Some (mkTool (Some contract) run) ->
            CallTool tools env name (Some given) w = (r, w)).
Proof.
  intros env name contract given k vs v Henum Hne Hv Hout.
  unfold enum_of in Henum.
  destruct contract as [| | | | | |sh|]; try discriminate.
  destruct (assoc k sh) as [tk|] eqn:Hk; [|discriminate].
  apply (rejected_key_stops_the_handler env name (ZObject sh) given k tk).
  - exists sh. split; [reflexivity|assumption].
  - assumption.
  - rewrite Hv.
    destruct tk as [| | |vs'| | | |inner]; try discriminate.
    + injection Henum as ->. apply validate_outside_enum; assumption.
    + destruct inner as [| | |vs'| | | |]; try discriminate.
      injection Henum as ->. simpl.
      apply (validate_outside_enum vs [PKey k] v Hout).
Qed.

(** C4 (as amended).  The credential is the [github_pat] of the record when
    that field is truthy; otherwise [GITHUB_PAT] when it is set and not
    blank; otherwise [GITHUB_PERSONAL_ACCESS_TOKEN] when it is set and not
    blank; otherwise the handler fails with the missing-credential error
    whatever the table of operations is, none being run and the world being
    left as found. *)
Theorem credential_resolution_order :
  forall tools env name given w,
    (truthy (assoc "github_pat" given) = true ->
     handle tools env name (Some given) w = dispatch tools name given w)
    /\ (truthy (assoc "github_pat" given) = false ->
        forall s, GITHUB_PAT env = Some s -> trim s <> "" ->
        handle tools env name (Some given) w =
        dispatch tools name (set_assoc "github_pat" (JStr s) given) w)
    /\ (truthy (assoc "github_pat" given) = false ->
        non_blank (GITHUB_PAT env) = false ->
        forall s, GITHUB_PERSONAL_ACCESS_TOKEN env = Some s -> trim s <> "" ->
        handle tools env name (Some given) w =
        dispatch tools name (set_assoc "github_pat" (JStr s) given) w)
    /\ (truthy (assoc "github_pat" given) = false ->
        non_blank (GITHUB_PAT env) = false ->
        non_blank (GITHUB_PERSONAL_ACCESS_TOKEN env) = false ->
        CallTool tools env name (Some given) w =
        (Throw (Error "GitHub PAT is required"), w)).
Proof.
  intros tools env name given w.
  unfold CallTool, try_catch, handle, bind, resolve_credential.
  repeat split.
  - intros ->. simpl. reflexivity.
  - intros -> s Hs Hnb. simpl. unfold non_blank. rewrite Hs.
    destruct (String.eqb_spec (trim s) ""); [contradiction|]. simpl. reflexivity.
  - intros -> -> s Hs Hnb. simpl. unfold non_blank at 1. rewrite Hs.
    destruct (String.eqb_spec (trim s) ""); [contradiction|]. simpl. reflexivity.
  - intros -> -> ->. simpl. reflexivity.
Qed.


(** ** The operations *)

#[local] Arguments String.append : simpl never.
#[local] Arguments repos : simpl never.
#[local] Arguments Number_toString : simpl never.

Ltac unfold_calls :=
  unfold createBranchFromRef, createOrUpdateFile, pushFiles,
    uploadReleaseAsset in *;
  unfold createTree, createCommit, updateReference, getDefaultBranchSHA,
    getBranchSHA, createBranch, getFileContents in *;
  unfold githubRequest, parse, bind, try_catch, ret, throw, console_error in *.

Ltac case_step :=
  match goal with
  | |- context [serve ?s ?r] =>
      let reply := fresh "reply" in
      let s' := fresh "remote'" in
      let E := fresh "Eserve" in
      destruct (serve s r) as [reply s'] eqn:E; simpl
  | |- context [match ?x with NetworkFailure _ => _ | Answer _ => _ end] =>
      let E := fresh "Ereply" in destruct x eqn:E; simpl
  | |- context [if ok ?r then _ else _] =>
      let E := fresh "Eok" in destruct (ok r) eqn:E; simpl
  | |- context [match ?x with inl _ => _ | inr _ => _ end] =>
      let E := fresh "Eparse" in destruct x eqn:E; simpl
  | |- context [if ?b then _ else _] =>
      let E := fresh "Etest" in destruct b eqn:E; simpl
  end.

(** C2.  A push issues its calls in the order fetch reference, create tree,
    create commit, update reference.  The first call is always made; each
    later call is made exactly when the one before it was answered 2xx and
    its contract accepted the reply, and it is built from what the contract
    returned.  A call that fails is the last one made, and a push that stops
    early throws the failure of its last call or the issues its contract
    found in the reply.  When the fourth reply is accepted the push returns
    it, having made exactly the four calls; and the service is left in the
    state the calls made put it in, none being undone. *)
Theorem pushFiles_four_calls_in_order :
  forall github_pat owner repo branch files message (w : World),
    let out := pushFiles github_pat owner repo branch files message w in
    exists made ref tree commit,
      calls (snd out) = (calls w ++ made)%list
      /\ (exists k, (1 <= k <= 4)%nat /\
            map fst made =
            firstn k (pushFiles_plan github_pat owner repo branch files message
                        ref tree commit))
      /\ (forall i c, nth_error made i = Some c -> failed (snd c) = true ->
            length made = S i)
      /\ (forall v, fst out = Return v -> length made = 4%nat)
      /\ (forall q a accepted,
            nth_error made 0 = Some (q, Answer a) -> ok a = true ->
            GitHubReferenceSchema (body_of a) = inr accepted ->
            accepted = ref /\ (2 <= length made)%nat)
      /\ (forall q a accepted,
            nth_error made 1 = Some (q, Answer a) -> ok a = true ->
            GitHubTreeSchema (body_of a) = inr accepted ->
            accepted = tree /\ (3 <= length made)%nat)
      /\ (forall q a accepted,
            nth_error made 2 = Some (q, Answer a) -> ok a = true ->
            GitHubCommitSchema (body_of a) = inr accepted ->
            accepted = commit /\ length made = 4%nat)
      /\ (forall q a,
            nth_error made 3 = Some (q, Answer a) -> ok a = true ->
            fst out = match GitHubReferenceSchema (body_of a) with
                      | inr accepted => Return accepted
                      | inl issues => Throw (ZodError issues)
                      end)
      /\ (forall e, fst out = Throw e ->
            exists q r,
              nth_error made (length made - 1) = Some (q, r)
              /\ ((failed r = true /\ e = raised_by r)
                  \/ (exists a issues,
                        r = Answer a /\ ok a = true
                        /\ push_contract (length made) (body_of a) = inl issues
                        /\ e = ZodError issues)))
      /\ run_requests (remote w) (map fst made) = (made, remote (snd out)).
Proof.
  intros github_pat owner repo branch files message0 w. cbv zeta.
  unfold_calls. simpl.
  repeat case_step.
  all: repeat rewrite <- app_assoc; simpl.
  all: eexists; eexists; eexists; eexists.
  all: (split; [reflexivity|]).
  all: cbn [map fst length].
  all: split;
    [ first [ exists 1%nat; split; [lia|reflexivity]
            | exists 2%nat; split; [lia|reflexivity]
            | exists 3%nat; split; [lia|reflexivity]
            | exists 4%nat; split; [lia|reflexivity] ] |].
  all: split;
    [ intros i c Hn Hf;
      repeat (destruct i as [|i]; cbn [nth_error] in Hn;
              [ injection Hn as <-; cbn [snd failed] in Hf;
                first [ reflexivity
                      | exfalso;
                        repeat match goal with
                               | H : ok ?r = true |- _ => rewrite H in Hf; clear H
                               end;
                        discriminate ] |]);
      destruct i; discriminate |].
  all: split; [ intros v Hv; first [reflexivity | discriminate] |].
  all: do 3 (split;
    [ intros q a accepted Hn Hok Hs; cbn [nth_error] in Hn;
      first [ discriminate Hn
            | injection Hn as ? ?; subst; unfold body_of in Hs;
              first [ congruence
                    | split; [congruence | cbn [length]; lia] ] ] |]).
  all: split;
    [ intros q a Hn Hok; cbn [nth_error] in Hn;
      first [ discriminate Hn
            | injection Hn as ? ?; subst; unfold body_of;
              first [ congruence
                    | match goal with
                      | H : ?x = _ |- context [match ?x with _ => _ end] =>
                          rewrite H; reflexivity
                      end ] ] |].
  all: split;
    [ intros e He; first [ discriminate He | injection He as <- ];
      eexists; eexists; cbn [length Nat.sub nth_error];
      (split; [reflexivity|]);
      first [ left; cbn [failed raised_by];
              repeat match goal with
                     | H : ok ?r = false |- _ => rewrite H; clear H
                     end;
              split; reflexivity
            | right; eexists; eexists;
              split; [reflexivity|];
              split; [assumption|];
              split; [cbn [push_contract]; unfold body_of; eassumption|reflexivity] ] |].
  all: cbn [run_requests];
    repeat match goal with
           | H : serve _ _ = _ |- _ => rewrite H; clear H
           end;
    reflexivity.
  Unshelve. all: exact JNull.
Qed.

(** The probes for the default branch: [main] always, [master] only when
    the probe of [main] fails or its contract rejects the reply; and when
    the probe of [master] fails too, what is thrown is the error of that
    probe, as it is. *)
Lemma getDefaultBranchSHA_probes :
  forall github_pat owner repo (w : World),
    exists first rest,
      calls (snd (getDefaultBranchSHA github_pat owner repo w))
      = (calls w ++ (probe github_pat owner repo "main", first) :: rest)%list
      /\ (rest = [] \/
          exists second,
            rest = [(probe github_pat owner repo "master", second)]
            /\ (failed first = true \/
                exists a issues,
                  first = Answer a /\
                  GitHubReferenceSchema
                    (match resp_body a with Some j => j | None => JObj [] end)
                  = inl issues)
            /\ (failed second = true ->
                fst (getDefaultBranchSHA github_pat owner repo w)
                = Throw (raised_by second))).
Proof.
  intros. unfold probe. unfold_calls. simpl.
  repeat case_step.
  all: repeat rewrite <- app_assoc; simpl.
  all: eexists; eexists; (split; [reflexivity|]).
  all: try (left; reflexivity).
  all: right; eexists; (split; [reflexivity|]).
  all: split;
    [ first [ left; cbn [failed]; try reflexivity;
              repeat match goal with
                     | H : ok ?r = false |- _ => rewrite H; clear H
                     end; reflexivity
            | right; eexists; eexists; split; [reflexivity|eassumption] ] |].
  all: cbn [failed raised_by]; intros Hf; try reflexivity; try discriminate Hf.
  all: exfalso;
    repeat match goal with
           | H : ok ?r = true |- _ => rewrite H in Hf; clear H
           end; discriminate.
Qed.

(** X3.  A branch created without a source probes [main] first; [master]
    is probed only after [main] failed or was rejected by its contract; and
    when both probes fail no other call is made and the failure of the
    second probe is the result, as raised. *)
Lemma createBranchFromRef_default_probes :
  forall github_pat owner repo newBranch (w : World),
    exists first rest,
      calls (snd (createBranchFromRef github_pat owner repo newBranch None w))
      = (calls w ++ (probe github_pat owner repo "main", first) :: rest)%list
      /\ (forall x, In x rest -> fst x = probe github_pat owner repo "master" ->
          failed first = true \/
          exists a issues,
            first = Answer a /\
            GitHubReferenceSchema
              (match resp_body a with Some j => j | None => JObj [] end)
            = inl issues)
      /\ (failed first = true ->
          exists second rest',
            rest = (probe github_pat owner repo "master", second) :: rest'
            /\ (failed second = true ->
                rest' = [] /\
                fst (createBranchFromRef github_pat owner repo newBranch None w)
                = Throw (raised_by second))).
Proof.
  intros. unfold probe. unfold_calls. simpl.
  repeat case_step.
  all: repeat rewrite <- app_assoc; simpl.
  all: eexists; eexists; (split; [reflexivity|]).
  all: split;
    [ intros x Hin Hx; cbn [In] in Hin;
      repeat match goal with
             | H : _ \/ _ |- _ => destruct H as [H|H]
             | H : False |- _ => destruct H
             end;
      subst x; cbn [fst] in Hx; try discriminate Hx;
      first [ left; cbn [failed]; try reflexivity;
              repeat match goal with
                     | H : ok ?r = false |- _ => rewrite H; clear H
                     end; reflexivity
            | right; eexists; eexists; split; [reflexivity|eassumption] ] |].
  all: cbn [failed]; intros Hf;
    repeat match goal with
           | H : ok ?r = true |- _ => rewrite H in Hf
           end;
    try discriminate Hf.
  all: eexists; eexists; (split; [reflexivity|]).
  all: cbn [failed raised_by]; intros Hf2;
    repeat match goal with
           | H : ok ?r = true |- _ => rewrite H in Hf2
           end;
    try discriminate Hf2.
  all: split; reflexivity.
Qed.

(** C5.  When the probe for the revision of the file fails, whatever the
    error, a push without [sha] goes on: the failure is logged as the
    absence of the file, the request that writes the file is made with no
    [sha] in its body, and the result is the result of that request. *)
Theorem createOrUpdateFile_takes_any_probe_failure_for_absence :
  forall github_pat owner repo path content message branch (w w1 : World) e,
    getFileContents
      (mkGetFileContents github_pat owner repo path None (Some branch)) w
    = (Throw e, w1) ->
    let noted :=
      mkWorld (remote w1) (calls w1)
        (console w1 ++
         ["Note: File does not exist in branch, will create new file"])%list in
    createOrUpdateFile github_pat owner repo path content message branch None w
    = bind (githubRequest github_pat (repos owner repo ++ "/contents/" ++ path)
              (mkOptions (Some "PUT")
                 (req_body (put_without_sha github_pat owner repo path content
                              message branch))
                 []))
           (parse GitHubCreateUpdateFileResponseSchema) noted
    /\ (exists answer,
          calls (snd (createOrUpdateFile github_pat owner repo path content
                        message branch None w))
          = (calls w1 ++
             [(put_without_sha github_pat owner repo path content message branch,
               answer)])%list).
Proof.
  intros github_pat owner repo path content message0 branch w w1 e Hprobe noted.
  assert (Hput :
    createOrUpdateFile github_pat owner repo path content message0 branch None w
    = bind (githubRequest github_pat (repos owner repo ++ "/contents/" ++ path)
              (mkOptions (Some "PUT")
                 (req_body (put_without_sha github_pat owner repo path content
                              message0 branch))
                 []))
           (parse GitHubCreateUpdateFileResponseSchema) noted).
  { unfold createOrUpdateFile. cbn [option_map truthy negb].
    unfold bind at 1. unfold try_catch. unfold bind at 1.
    rewrite Hprobe. unfold bind at 1. unfold console_error.
    cbn [ret truthy app]. fold noted. reflexivity. }
  split; [exact Hput|].
  rewrite Hput.
  unfold bind, githubRequest, put_without_sha.
  cbn [opt_method opt_body opt_headers req_body].
  match goal with
  | |- context [serve ?s ?r] =>
      destruct (serve s r) as [answer remote'] eqn:Eserve
  end.
  exists answer.
  destruct answer as [reason|r]; [reflexivity|].
  destruct (ok r); [|reflexivity].
  unfold parse. destruct (GitHubCreateUpdateFileResponseSchema _); reflexivity.
Qed.


Ltac no_post :=
  split; [reflexivity|];
  split; [left; reflexivity|];
  split; [intros Hf; first [discriminate Hf | split; reflexivity]|];
  split; [intros v Hv; discriminate Hv|];
  split; [intros a u url0 Ha Hok Hp Hu; exfalso;
          first [ discriminate Ha
                | injection Ha as <-; unfold body_of in Hp; congruence ]|];
  intros c [].

(** C9.  An asset upload fetches the release first.  When the fetch fails
    there is no post and the failure of the fetch is the result.  When the
    fetch is answered 2xx with an upload URL, the asset is posted to that
    URL with the name (and the label) in its query, and the result is the
    failure of the post or what the contract of an asset makes of its
    reply.  The body of the post is the text [Buffer] decodes from the
    base64 content, given as a raw body, which is sent as it is and not as
    JSON, and its only header is [Content-Type] with the content type
    given. *)
Theorem uploadReleaseAsset_decodes_then_posts :
  forall github_pat owner repo release_id name content content_type label
         (w : World),
    let out := uploadReleaseAsset github_pat owner repo release_id name
                 content content_type label w in
    let decoded := Buffer_toString_utf8 (Buffer_from_base64 content) in
    exists fetched rest,
      calls (snd out)
      = (calls w ++
         (fetch_release github_pat owner repo release_id, fetched) :: rest)%list
      /\ (rest = [] \/
          exists url uploaded,
            rest = [(post_asset github_pat url content content_type, uploaded)])
      /\ (failed fetched = true ->
          rest = [] /\ fst out = Throw (raised_by fetched))
      /\ (forall v, fst out = Return v -> length rest = 1%nat)
      /\ (forall a upload_url url,
            fetched = Answer a -> ok a = true ->
            prop (body_of a) "upload_url" = Some (JStr upload_url) ->
            URL_new (replace_first "{?name,label}" "" upload_url) = Some url ->
            exists uploaded,
              rest = [(post_asset github_pat (asset_url url name label)
                         content content_type, uploaded)]
              /\ (failed uploaded = true -> fst out = Throw (raised_by uploaded))
              /\ (forall b, uploaded = Answer b -> ok b = true ->
                    fst out = match ReleaseAssetSchema (body_of b) with
                              | inr asset => Return asset
                              | inl issues => Throw (ZodError issues)
                              end))
      /\ (forall c, In c rest ->
            req_method (fst c) = "POST"
            /\ req_body (fst c) = Some (RawBody decoded)
            /\ option_map transmitted (req_body (fst c)) = Some decoded
            /\ req_headers (fst c) = [("Content-Type", content_type)]).
Proof.
  intros github_pat owner repo release_id name content content_type label w.
  cbv zeta.
  unfold fetch_release, post_asset, asset_url. unfold_calls.
  destruct label as [l|]; cbn [option_map truthy];
    [destruct (l =? "")%string; cbn [negb]|]; simpl.
  all: destruct (serve (remote w) _) as [fetched remote'] eqn:Eserve.
  all: exists fetched.
  all: destruct fetched as [reason|r]; simpl; [exists []; no_post|].
  all: destruct (ok r) eqn:Eok; simpl; [|exists []; no_post].
  all: destruct (prop (match resp_body r with Some j => j | None => JObj [] end)
                   "upload_url") as [field|] eqn:Eprop; simpl;
         [|exists []; no_post].
  all: destruct field as [| | |upload_url| |]; simpl; try (exists []; no_post).
  all: destruct (URL_new (replace_first "{?name,label}" "" upload_url))
         as [url|] eqn:Eurl; simpl; [|exists []; no_post].
  all: repeat case_step.
  all: repeat rewrite <- app_assoc; simpl.
  all: eexists; (split; [reflexivity|]).
  all: (split; [right; eexists; eexists; reflexivity|]).
  all: (split; [intros Hf; discriminate Hf|]).
  all: (split; [intros v Hv; reflexivity|]).
  all: split;
    [ intros a u url0 Ha Hok Hp Hu; injection Ha as <-; unfold body_of in Hp;
      assert (u = upload_url) by congruence; subst u;
      assert (url0 = url) by congruence; subst url0;
      eexists; split; [reflexivity|];
      split;
      [ cbn [failed raised_by]; intros Hf;
        first [ reflexivity
              | exfalso;
                repeat match goal with
                       | H : ok ?x = true |- _ => rewrite H in Hf; clear H
                       end;
                discriminate Hf ]
      | intros b Hb Hokb;
        first [ discriminate Hb
              | injection Hb as <-; unfold body_of;
                first [ congruence
                      | match goal with
                        | H : ?x = _ |- context [match ?x with _ => _ end] =>
                            rewrite H; reflexivity
                        end ] ] ]
    |].
  all: intros c [<-|[]]; repeat split.
Qed.

(** C10 (as amended).  With the flag omitted the operation does what it
    does with the flag false: for a single file whose content is a string
    that is not empty, the record returned has the text [Buffer] decodes
    from the base64 content as its content and [utf8] as its encoding.
    With the flag true the validated reply is returned as it is.  The
    description of the flag in the input schema names true as its default. *)
Theorem getFileContents_decodes_unless_encoded :
  forall (a : GetFileContentsArgs) (w w1 : World) data c,
    fetch_contents a w = (Return data, w1) ->
    isArray data = false ->
    prop data "content" = Some (JStr c) ->
    c <> "" ->
    let decoded :=
      set_prop (set_prop data "content"
                  (JStr (Buffer_toString_utf8 (Buffer_from_base64 c))))
               "encoding" (JStr "utf8") in
    getFileContents (with_encoded a None) w = (Return decoded, w1)
    /\ prop decoded "content"
       = Some (JStr (Buffer_toString_utf8 (Buffer_from_base64 c)))
    /\ prop decoded "encoding" = Some (JStr "utf8")
    /\ getFileContents (with_encoded a None) w
       = getFileContents (with_encoded a (Some false)) w
    /\ getFileContents (with_encoded a (Some true)) w = (Return data, w1)
    /\ String.index 0 "default = true" GetFileContentsSchema_encoded_description
       <> None.
Proof.
  intros a w w1 data c Hfetch Harr Hc Hne decoded.
  assert (Htruthy : truthy (prop data "content") = true).
  { rewrite Hc. simpl. destruct (String.eqb_spec c ""); [contradiction|reflexivity]. }
  unfold fetch_contents in Hfetch.
  unfold getFileContents, with_encoded, encoded_or_default.
  cbn [gfc_github_pat gfc_owner gfc_repo gfc_path gfc_encoded gfc_branch].
  unfold bind in *.
  destruct (githubRequest _ _ _ w) as [[received|e] w0]; [|discriminate].
  destruct (parse GitHubContentSchema received w0) as [[data'|e] w0'] eqn:Ep;
    [|discriminate].
  injection Hfetch as -> ->.
  rewrite Harr, Htruthy, Hc. cbn [negb andb].
  repeat split.
  - destruct data as [| | | | |kvs]; try discriminate.
    unfold decoded. cbn [set_prop prop].
    rewrite assoc_set_assoc_other by discriminate.
    apply assoc_set_assoc_same.
  - destruct data as [| | | | |kvs]; try discriminate.
    unfold decoded. cbn [set_prop prop]. apply assoc_set_assoc_same.
  - vm_compute. discriminate.
Qed.

(** C6.  The classifier is a function of the status, the headers and the
    body: it keeps the status and the body, and its class is the
    authentication error for 401, the permission error for a 403 that is not
    an exhausted rate limit, not found for 404, the conflict for 409, the
    validation error for 422, the rate-limit error with the computed reset
    time for 429 and for a 403 whose remaining-requests header is 0, and the
    generic error for every other status. *)
Theorem classifier_maps_each_status_to_one_class :
  forall (st : Z) (headers : list (string * string)) (b : value),
    status (createGitHubError st headers b) = st
    /\ response (createGitHubError st headers b) = b
    /\ (st = 401%Z -> cls (createGitHubError st headers b) = CGitHubAuthenticationError)
    /\ (st = 403%Z -> rate_limit_exhausted headers = false ->
        cls (createGitHubError st headers b) = CGitHubPermissionError)
    /\ (st = 404%Z -> cls (createGitHubError st headers b) = CGitHubResourceNotFoundError)
    /\ (st = 409%Z -> cls (createGitHubError st headers b) = CGitHubConflictError)
    /\ (st = 422%Z -> cls (createGitHubError st headers b) = CGitHubValidationError)
    /\ (st = 429%Z \/ (st = 403%Z /\ rate_limit_exhausted headers = true) ->
        cls (createGitHubError st headers b)
        = CGitHubRateLimitError (rateLimitReset headers b))
    /\ (st <> 401%Z -> st <> 403%Z -> st <> 404%Z -> st <> 409%Z ->
        st <> 422%Z -> st <> 429%Z ->
        cls (createGitHubError st headers b) = CGitHubError).
Proof.
  intros st headers b. unfold createGitHubError, classify. cbn [status response cls].
  repeat split.
  - intros ->. reflexivity.
  - intros -> ->. reflexivity.
  - intros ->. reflexivity.
  - intros ->. reflexivity.
  - intros ->. reflexivity.
  - intros [->|[-> ->]]; reflexivity.
  - intros H1 H2 H3 H4 H5 H6.
    repeat match goal with
           | |- context [(st =? ?n)%Z] =>
               destruct (Z.eqb_spec st n); [contradiction|]
           end.
    reflexivity.
Qed.



(** ** More on validation *)

(** What a shape accepts has no key but those of the shape. *)
Lemma validate_shape_keys :
  forall sh p kvs out,
    validate_shape sh p kvs = inr out ->
    forall k, In k (keys out) -> In k (keys sh).
Proof.
  induction sh as [|[k0 t0] rest IH]; intros p kvs out H k Hin; simpl in H.
  - injection H as <-. destruct Hin.
  - destruct (validate t0 (p ++ [PKey k0])%list (assoc k0 kvs)) as [e|[v|]];
      destruct (validate_shape rest p kvs) as [e'|out'] eqn:Hrest;
      simpl in H; try discriminate; injection H as <-.
    + destruct Hin as [<-|Hin]; [left; reflexivity|].
      right. apply (IH p kvs out' Hrest k Hin).
    + right. apply (IH p kvs out' Hrest k Hin).
Qed.

Lemma assoc_none_of_keys :
  forall (A : Type) k (l : list (string * A)), ~ In k (keys l) -> assoc k l = None.
Proof.
  intros A k l. induction l as [|[k0 v0] rest IH]; intros H; simpl; [reflexivity|].
  destruct (String.eqb_spec k k0) as [->|Hne].
  - exfalso. apply H. left. reflexivity.
  - apply IH. intros Hin. apply H. right. exact Hin.
Qed.

(** A value that is not [undefined] is never parsed to [undefined]. *)
Lemma validate_defined :
  forall t p v r, validate t p (Some v) = inr r -> r <> None.
Proof.
  induction t; intros p v r H; simpl in H.
  - destruct v; try discriminate; injection H as <-; discriminate.
  - destruct v; try discriminate; injection H as <-; discriminate.
  - destruct v; try discriminate; injection H as <-; discriminate.
  - destruct v; try discriminate. destruct (in_enum s values); [|discriminate].
    injection H as <-; discriminate.
  - destruct v; try discriminate.
    match type of H with match ?x with _ => _ end = _ => destruct x end;
      [discriminate|]. injection H as <-; discriminate.
  - destruct v; try discriminate.
    match type of H with match ?x with _ => _ end = _ => destruct x end;
      [discriminate|]. injection H as <-; discriminate.
  - destruct v; try discriminate.
    match type of H with match ?x with _ => _ end = _ => destruct x end;
      [discriminate|]. injection H as <-; discriminate.
  - apply (IHt p v r H).
Qed.

(** Under a shape whose keys are distinct, the record accepted holds under
    each key what the contract of the key made of the value given. *)
Lemma validate_shape_field :
  forall sh p kvs out,
    validate_shape sh p kvs = inr out ->
    NoDup (keys sh) ->
    forall k tk, In (k, tk) sh ->
      validate tk (p ++ [PKey k])%list (assoc k kvs) = inr (assoc k out).
Proof.
  induction sh as [|[k0 t0] rest IH]; intros p kvs out H Hnd k tk Hin; simpl in H.
  - destruct Hin.
  - inversion Hnd as [|? ? Hnotin Hnd']; subst.
    destruct (validate t0 (p ++ [PKey k0])%list (assoc k0 kvs)) as [e|ov] eqn:Hv0;
      [destruct (validate_shape rest p kvs); discriminate|].
    destruct (validate_shape rest p kvs) as [e'|out'] eqn:Hrest;
      [destruct ov; discriminate|].
    assert (Hk0 : assoc k0 out' = None).
    { apply assoc_none_of_keys. intros Hc. apply Hnotin.
      apply (validate_shape_keys rest p kvs out' Hrest k0 Hc). }
    destruct Hin as [Heq|Hin].
    + injection Heq as <- <-. rewrite Hv0.
      destruct ov as [v|]; simpl in H; injection H as <-; simpl.
      * rewrite String.eqb_refl. reflexivity.
      * rewrite Hk0. reflexivity.
    + assert (Hne : k <> k0).
      { intros ->. apply Hnotin. unfold keys.
        change k0 with (fst (k0, tk)). apply in_map. exact Hin. }
      rewrite (IH p kvs out' Hrest Hnd' k tk Hin).
      destruct ov as [v|]; simpl in H; injection H as <-; simpl.
      * destruct (String.eqb_spec k k0); [contradiction|reflexivity].
      * reflexivity.
Qed.

Lemma validate_string_accepts :
  forall p v r, validate ZString p v = inr r ->
    exists s, v = Some (JStr s) /\ r = Some (JStr s).
Proof.
  intros p v r H. simpl in H. destruct v as [[| | |s| |]|]; try discriminate.
  injection H as <-. exists s. split; reflexivity.
Qed.

Lemma validate_enum_accepts :
  forall vs p v r, validate (ZEnum vs) p v = inr r ->
    exists s, v = Some (JStr s) /\ r = Some (JStr s) /\ in_enum s vs = true.
Proof.
  intros vs p v r H. simpl in H. destruct v as [[| | |s| |]|]; try discriminate.
  destruct (in_enum s vs) eqn:E; [|discriminate].
  injection H as <-. exists s.
  split; [reflexivity|split; [reflexivity|exact E]].
Qed.

(** What is left of a record once some keys are taken out. *)
Lemma rest_of_keys :
  forall kvs taken k,
    In k (keys (rest_of (JObj kvs) taken)) ->
    In k (keys kvs) /\ member k taken = false.
Proof.
  intros kvs taken k. unfold rest_of, keys.
  induction kvs as [|[k0 v0] rest IH]; simpl; [intros []|].
  destruct (existsb (String.eqb k0) taken) eqn:E; simpl.
  - intros H. destruct (IH H) as [H1 H2]. split; [right; exact H1|exact H2].
  - intros [<-|H].
    + split; [left; reflexivity|exact E].
    + destruct (IH H) as [H1 H2]. split; [right; exact H1|exact H2].
Qed.

Lemma rest_of_assoc :
  forall kvs taken k,
    member k taken = false ->
    assoc k (rest_of (JObj kvs) taken) = assoc k kvs.
Proof.
  intros kvs taken k Hk. unfold rest_of.
  induction kvs as [|[k0 v0] rest IH]; simpl; [reflexivity|].
  destruct (String.eqb_spec k k0) as [->|Hne].
  - unfold member in Hk. rewrite Hk. simpl. rewrite String.eqb_refl. reflexivity.
  - destruct (existsb (String.eqb k0) taken); simpl.
    + exact IH.
    + destruct (String.eqb_spec k k0); [contradiction|exact IH].
Qed.

(** ** More on the operations *)

Lemma bind_returns :
  forall (A B : Type) (m : M A) (k : A -> M B) (w w1 : World) (a : A),
    m w = (Return a, w1) -> bind m k w = k a w1.
Proof.
  intros A B m k w w1 a H. unfold bind. rewrite H. reflexivity.
Qed.

Ltac finish_put :=
  unfold bind, githubRequest, parse; cbn [opt_method opt_body opt_headers];
  match goal with
  | |- context [serve ?s ?r] =>
      let reply := fresh "reply" in
      let remote' := fresh "remote'" in
      destruct (serve s r) as [reply remote'];
      exists reply;
      destruct reply as [?|a]; [split; reflexivity|];
      destruct (ok a); [|split; reflexivity];
      destruct (GitHubCreateUpdateFileResponseSchema _); split; reflexivity
  end.

(** X1.  A tag is created with one POST to [git/refs] whose [ref] always
    starts with [refs/]: a name that starts so is sent as given, any other
    name is put under [refs/tags/]. *)
Theorem createTag_sends_a_qualified_ref :
  forall github_pat owner repo ref sha (w : World),
    exists sent reply,
      calls (snd (createTag github_pat owner repo ref sha w))
      = (calls w ++ [(create_ref_request github_pat owner repo sent sha, reply)])%list
      /\ String.prefix "refs/" sent = true
      /\ (String.prefix "refs/" ref = true -> sent = ref)
      /\ (String.prefix "refs/" ref = false -> sent = "refs/tags/" ++ ref).
Proof.
  intros. unfold createTag, create_ref_request. unfold_calls.
  cbn [opt_method opt_body opt_headers].
  destruct (String.prefix "refs/" ref) eqn:Hprefix.
  - exists ref.
    match goal with
    | |- context [serve ?s ?r] => destruct (serve s r) as [reply remote'] eqn:Eserve
    end.
    exists reply. split.
    + destruct reply as [reason|a]; [reflexivity|].
      destruct (ok a); [|reflexivity].
      destruct (zod_contract TagSchema _); reflexivity.
    + repeat split; try assumption; discriminate.
  - exists ("refs/tags/" ++ ref).
    match goal with
    | |- context [serve ?s ?r] => destruct (serve s r) as [reply remote'] eqn:Eserve
    end.
    exists reply. split.
    + destruct reply as [reason|a]; [reflexivity|].
      destruct (ok a); [|reflexivity].
      destruct (zod_contract TagSchema _); reflexivity.
    + repeat split; discriminate.
Qed.

(** X2.  A branch created from a named source probes that source and no
    other branch.  When the probe fails nothing is created and the failure
    of the probe is the result; when its reply is rejected by the contract
    of a reference nothing is created either and the issues are thrown.
    When the probe is answered 2xx and accepted, the branch is created: the
    only other call creates [refs/heads/] followed by the new name at the
    commit the probe returned, and the result is the failure of that call
    or what the contract makes of its reply. *)
Theorem createBranchFromRef_from_a_named_source :
  forall github_pat owner repo newBranch source (w : World),
    source <> "" ->
    let out := createBranchFromRef github_pat owner repo newBranch
                 (Some source) w in
    exists probed rest,
      calls (snd out)
      = (calls w ++ (probe github_pat owner repo source, probed) :: rest)%list
      /\ (failed probed = true ->
          rest = [] /\ fst out = Throw (raised_by probed))
      /\ (rest = [] \/
          exists a data created,
            probed = Answer a
            /\ GitHubReferenceSchema (body_of a) = inr data
            /\ rest = [(create_ref_request github_pat owner repo
                          ("refs/heads/" ++ newBranch) (reference_object_sha data),
                        created)])
      /\ (forall v, fst out = Return v -> length rest = 1%nat)
      /\ (forall a issues,
            probed = Answer a -> ok a = true ->
            GitHubReferenceSchema (body_of a) = inl issues ->
            rest = [] /\ fst out = Throw (ZodError issues))
      /\ (forall a data,
            probed = Answer a -> ok a = true ->
            GitHubReferenceSchema (body_of a) = inr data ->
            exists created,
              rest = [(create_ref_request github_pat owner repo
                         ("refs/heads/" ++ newBranch) (reference_object_sha data),
                       created)]
              /\ (failed created = true -> fst out = Throw (raised_by created))
              /\ (forall b, created = Answer b -> ok b = true ->
                    fst out = match GitHubReferenceSchema (body_of b) with
                              | inr reference => Return reference
                              | inl issues => Throw (ZodError issues)
                              end)).
Proof.
  intros github_pat owner repo newBranch source w Hsource. cbv zeta.
  unfold createBranchFromRef. cbn [option_map truthy].
  destruct (String.eqb_spec source ""); [contradiction|]. cbn [negb].
  unfold probe, create_ref_request, body_of. unfold_calls. simpl.
  repeat case_step.
  all: repeat rewrite <- app_assoc; simpl.
  all: eexists; eexists; (split; [reflexivity|]).
  all: cbn [failed raised_by].
  all: split;
    [ intros Hf;
      repeat match goal with
             | H : ok ?r = true |- _ => rewrite H in Hf
             end;
      try discriminate Hf; split; reflexivity |].
  all: split;
    [ first [ left; reflexivity
            | right; eexists; eexists; eexists;
              split; [reflexivity|split; [eassumption|reflexivity]] ] |].
  all: split; [intros v Hv; first [reflexivity | discriminate Hv]|].
  all: split;
    [ intros a issues Ha Hok Hs;
      first [ discriminate Ha
            | injection Ha as <-;
              first [ congruence
                    | split; [reflexivity|congruence] ] ] |].
  all: intros a data Ha Hok Hs;
    first [ discriminate Ha
          | injection Ha as <-;
            first [ congruence
                  | assert (Hdata : data = j) by congruence; subst data ] ].
  all: eexists; (split; [reflexivity|]).
  all: split;
    [ cbn [failed raised_by]; intros Hf;
      first [ reflexivity
            | exfalso;
              repeat match goal with
                     | H : ok ?x = true |- _ => rewrite H in Hf; clear H
                     end;
              discriminate Hf ]
    | intros b Hb Hokb;
      first [ discriminate Hb
            | injection Hb as <-;
              first [ congruence
                    | match goal with
                      | H : ?x = _ |- context [match ?x with _ => _ end] =>
                          rewrite H; reflexivity
                      end ] ] ].
Qed.

(** X4.  The error kept for a default branch that could not be found is
    thrown only after two probes of which the second was answered with a
    success whose body is falsy ([null], [false], [0] or the empty
    string): a probe of [master] that fails never leads to it. *)
Theorem default_branch_not_found_needs_a_falsy_success :
  forall github_pat owner repo (w : World),
    fst (getDefaultBranchSHA github_pat owner repo w)
    = Throw (Error "Could not find default branch (tried 'main' and 'master')") ->
    exists first a j,
      calls (snd (getDefaultBranchSHA github_pat owner repo w))
      = (calls w ++ [(probe github_pat owner repo "main", first);
                     (probe github_pat owner repo "master", Answer a)])%list
      /\ ok a = true
      /\ resp_body a = Some j
      /\ truthy (Some j) = false.
Proof.
  intros github_pat owner repo w. unfold probe. unfold_calls. simpl.
  repeat case_step.
  all: intros Hthrown; try discriminate Hthrown.
  all: repeat rewrite <- app_assoc; simpl.
  all: match type of Etest with
       | context [resp_body ?r] =>
           let jb := fresh "falsy" in
           destruct (resp_body r) as [jb|] eqn:Hbody;
           [|discriminate Etest];
           eexists; exists r; exists jb;
           split; [reflexivity|];
           split; [assumption|];
           split; [exact Hbody|];
           apply negb_true_iff in Etest; exact Etest
       end.
Qed.

(** X5.  A file written with a revision given makes one call only: no
    probe, and the PUT carries that revision. *)
Theorem createOrUpdateFile_with_a_revision_does_not_probe :
  forall github_pat owner repo path content message branch sha (w : World),
    sha <> "" ->
    exists reply,
      calls (snd (createOrUpdateFile github_pat owner repo path content message
                    branch (Some sha) w))
      = (calls w ++
         [(put_with_sha github_pat owner repo path content message branch
             (JStr sha), reply)])%list
      /\ console (snd (createOrUpdateFile github_pat owner repo path content
                         message branch (Some sha) w))
         = console w.
Proof.
  intros github_pat owner repo path content message0 branch sha w Hsha.
  assert (Htruthy : truthy (Some (JStr sha)) = true).
  { cbn [truthy]. destruct (String.eqb_spec sha ""); [contradiction|reflexivity]. }
  unfold createOrUpdateFile, put_with_sha. cbn [option_map].
  rewrite Htruthy. cbn [negb].
  rewrite !(bind_returns _ _ _ _ w w (Some (JStr sha)) eq_refl).
  rewrite Htruthy. cbn [object app].
  finish_put.
Qed.

(** X6.  When the probe finds a single file, the revision it reports is
    the one the PUT carries: the file is updated, not created. *)
Theorem createOrUpdateFile_reuses_the_revision_found :
  forall github_pat owner repo path content message branch (w w1 : World)
         existing sha,
    getFileContents
      (mkGetFileContents github_pat owner repo path None (Some branch)) w
    = (Return existing, w1) ->
    isArray existing = false ->
    prop existing "sha" = Some (JStr sha) ->
    sha <> "" ->
    exists reply,
      calls (snd (createOrUpdateFile github_pat owner repo path content message
                    branch None w))
      = (calls w1 ++
         [(put_with_sha github_pat owner repo path content message branch
             (JStr sha), reply)])%list
      /\ console (snd (createOrUpdateFile github_pat owner repo path content
                         message branch None w))
         = console w1.
Proof.
  intros github_pat owner repo path content message0 branch w w1 existing sha
         Hprobe Harr Hsha Hne.
  assert (Htruthy : truthy (Some (JStr sha)) = true).
  { cbn [truthy]. destruct (String.eqb_spec sha ""); [contradiction|reflexivity]. }
  unfold createOrUpdateFile, put_with_sha. cbn [option_map truthy negb].
  rewrite !(bind_returns _ _ _ _ w w1 (Some (JStr sha))).
  2: { unfold try_catch. rewrite (bind_returns _ _ _ _ w w1 existing Hprobe).
       rewrite Harr. cbn [negb]. unfold ret. rewrite Hsha. reflexivity. }
  rewrite Htruthy. cbn [object app].
  finish_put.
Qed.

(** X7.  When the path probed is a directory, the listing has no revision
    to give: the PUT is made without [sha], as for a file that does not
    exist. *)
Theorem createOrUpdateFile_on_a_directory_sends_no_revision :
  forall github_pat owner repo path content message branch (w w1 : World)
         listing,
    getFileContents
      (mkGetFileContents github_pat owner repo path None (Some branch)) w
    = (Return listing, w1) ->
    isArray listing = true ->
    exists reply,
      calls (snd (createOrUpdateFile github_pat owner repo path content message
                    branch None w))
      = (calls w1 ++
         [(put_without_sha github_pat owner repo path content message branch,
           reply)])%list
      /\ console (snd (createOrUpdateFile github_pat owner repo path content
                         message branch None w))
         = console w1.
Proof.
  intros github_pat owner repo path content message0 branch w w1 listing
         Hprobe Harr.
  unfold createOrUpdateFile, put_without_sha. cbn [option_map truthy negb].
  rewrite !(bind_returns value json _ _ w w1 (@None json)).
  2: { unfold try_catch. rewrite (bind_returns _ _ _ _ w w1 listing Hprobe).
       rewrite Harr. cbn [negb]. reflexivity. }
  cbn [truthy app].
  finish_put.
Qed.

(** X8.  Reading the contents of a path makes exactly one call, a GET with
    no body to the contents URL of the path, with [?ref=] and the branch
    only when a branch is given and is not empty; a failure of that call is
    the result, as raised. *)
Theorem getFileContents_makes_one_call :
  forall (a : GetFileContentsArgs) (w : World),
    exists url reply,
      calls (snd (getFileContents a w))
      = (calls w ++ [(mkRequest (gfc_github_pat a) url "GET" None [], reply)])%list
      /\ console (snd (getFileContents a w)) = console w
      /\ (gfc_branch a = None \/ gfc_branch a = Some "" ->
          url = repos (gfc_owner a) (gfc_repo a) ++ "/contents/" ++ gfc_path a)
      /\ (forall b, gfc_branch a = Some b -> b <> "" ->
          url = (repos (gfc_owner a) (gfc_repo a) ++ "/contents/" ++ gfc_path a)
                ++ "?ref=" ++ b)
      /\ (failed reply = true -> fst (getFileContents a w) = Throw (raised_by reply)).
Proof.
  intros a w. unfold getFileContents.
  match goal with
  | |- context [githubRequest _ ?u GET] => exists u
  end.
  unfold bind, githubRequest, parse, ret, throw.
  cbn [opt_method opt_body opt_headers GET].
  match goal with
  | |- context [serve ?s ?r] => destruct (serve s r) as [reply remote'] eqn:Eserve
  end.
  exists reply.
  assert (Hurl1 : gfc_branch a = None \/ gfc_branch a = Some "" ->
            (if truthy (option_map JStr (gfc_branch a))
             then (repos (gfc_owner a) (gfc_repo a) ++ "/contents/" ++ gfc_path a)
                  ++ "?ref=" ++ match gfc_branch a with Some b => b | None => "" end
             else repos (gfc_owner a) (gfc_repo a) ++ "/contents/" ++ gfc_path a)
            = repos (gfc_owner a) (gfc_repo a) ++ "/contents/" ++ gfc_path a).
  { intros [->| ->]; reflexivity. }
  assert (Hurl2 : forall b, gfc_branch a = Some b -> b <> "" ->
            (if truthy (option_map JStr (gfc_branch a))
             then (repos (gfc_owner a) (gfc_repo a) ++ "/contents/" ++ gfc_path a)
                  ++ "?ref=" ++ match gfc_branch a with Some b => b | None => "" end
             else repos (gfc_owner a) (gfc_repo a) ++ "/contents/" ++ gfc_path a)
            = (repos (gfc_owner a) (gfc_repo a) ++ "/contents/" ++ gfc_path a)
              ++ "?ref=" ++ b).
  { intros b -> Hb. cbn [option_map truthy].
    destruct (String.eqb_spec b ""); [contradiction|reflexivity]. }
  destruct reply as [reason|r]; cbn [failed raised_by].
  - repeat split; try assumption.
  - destruct (ok r) eqn:Eok; cbn [negb].
    + destruct (GitHubContentSchema _) as [issues|data].
      * repeat split; try assumption. discriminate.
      * destruct (negb (isArray data) && truthy (prop data "content")
                  && negb (encoded_or_default a))%bool.
        -- destruct (prop data "content") as [[| | |c| |]|];
             repeat split; try assumption; discriminate.
        -- repeat split; try assumption. discriminate.
    + repeat split; try assumption.
Qed.

(** X9.  Whatever the flag, what is returned differs from the validated
    reply in its content and its encoding at most: a directory listing is
    returned as it is, and every other field of a file keeps its value. *)
Theorem getFileContents_keeps_the_other_fields :
  forall (a : GetFileContentsArgs) (w w1 : World) result,
    getFileContents a w = (Return result, w1) ->
    exists data,
      fetch_contents a w = (Return data, w1)
      /\ (isArray data = true -> result = data)
      /\ (forall k, k <> "content" -> k <> "encoding" ->
          prop result k = prop data k).
Proof.
  intros a w w1 result. unfold getFileContents, fetch_contents, bind.
  destruct (githubRequest _ _ _ w) as [[received|e] w0]; [|discriminate].
  destruct (parse GitHubContentSchema received w0) as [[data|e] w0']; [|discriminate].
  destruct (isArray data) eqn:Harr; cbn [negb andb].
  - unfold ret; cbv beta. intros Heq. inversion Heq; subst.
    eexists. split; [reflexivity|]. split; [reflexivity|]. reflexivity.
  - destruct (truthy (prop data "content") && negb (encoded_or_default a))%bool.
    + destruct (prop data "content") as [[| | |c| |]|]; try discriminate.
      unfold ret; cbv beta. intros Heq. inversion Heq; subst.
      exists data. split; [reflexivity|].
      split; [intros Hc; rewrite Harr in Hc; discriminate Hc|].
      intros k Hc He. destruct data as [| | | | |kvs]; try reflexivity.
      cbn [set_prop prop].
      rewrite assoc_set_assoc_other by exact He.
      apply assoc_set_assoc_other. exact Hc.
    + unfold ret; cbv beta. intros Heq. inversion Heq; subst.
      eexists. split; [reflexivity|]. split; [reflexivity|]. reflexivity.
Qed.

(** X10.  When the release fetched has no upload URL that is a string, the
    upload stops there with a type error: the fetch is the only call made,
    and nothing is posted. *)
Theorem uploadReleaseAsset_needs_an_upload_url :
  forall github_pat owner repo release_id name content content_type label
         (w : World) a remote',
    serve (remote w) (fetch_release github_pat owner repo release_id)
    = (Answer a, remote') ->
    ok a = true ->
    (forall u, prop (body_of a) "upload_url" <> Some (JStr u)) ->
    exists reason,
      uploadReleaseAsset github_pat owner repo release_id name content
        content_type label w
      = (Throw (TypeError reason),
         after_call w remote' (fetch_release github_pat owner repo release_id)
           (Answer a)).
Proof.
  intros github_pat owner repo release_id name content content_type label
         w a remote' Hserve Hok Hurl.
  unfold uploadReleaseAsset, after_call, body_of, fetch_release in *.
  unfold bind at 1. unfold githubRequest at 1.
  cbn [opt_method opt_body opt_headers GET].
  rewrite Hserve, Hok.
  destruct (prop _ "upload_url") as [[| | |u| |]|] eqn:Hprop;
    try (eexists; reflexivity).
  exfalso. apply (Hurl u). reflexivity.
Qed.

(** X11.  The rate limits are returned only when the reply names every one
    of the eight resources: a successful reply whose [resources] lack one
    of them is rejected by the contract after the one call made. *)
Theorem getRateLimit_requires_every_resource :
  forall github_pat (w : World) a remote' resources k,
    serve (remote w) (rate_limit_request github_pat) = (Answer a, remote') ->
    ok a = true ->
    prop (body_of a) "resources" = Some (JObj resources) ->
    In k rate_limit_resources ->
    assoc k resources = None ->
    exists issues,
      issues <> []
      /\ getRateLimit github_pat w
         = (Throw (ZodError issues),
            after_call w remote' (rate_limit_request github_pat) (Answer a)).
Proof.
  intros github_pat w a remote' resources k Hserve Hok Hres Hk Habsent.
  assert (Hbad : exists issues, issues <> [] /\
            zod_contract RateLimitSchema (body_of a) = inl issues).
  { unfold zod_contract, RateLimitSchema.
    destruct (body_of a) as [| | | | |kvs] eqn:Hbody; try discriminate Hres.
    cbn [prop] in Hres.
    rewrite validate_object_shape.
    match goal with
    | |- context [validate_shape ?sh [] kvs] =>
        destruct (validate_shape_rejects sh "resources"
                    (ZObject [("core", RateLimitResourceSchema);
                              ("search", RateLimitResourceSchema);
                              ("graphql", RateLimitResourceSchema);
                              ("integration_manifest", RateLimitResourceSchema);
                              ("code_scanning_upload", RateLimitResourceSchema);
                              ("actions_runner_registration", RateLimitResourceSchema);
                              ("scim", RateLimitResourceSchema);
                              ("dependency_snapshots", RateLimitResourceSchema)])
                    [] kvs eq_refl) as (issues & Hne & Hv)
    end.
    - rewrite Hres. rewrite validate_object_shape.
      match goal with
      | |- context [validate_shape ?sh ?p resources] =>
          destruct (validate_shape_rejects sh k RateLimitResourceSchema p resources)
            as (issues & Hne & Hv)
      end.
      + unfold rate_limit_resources in Hk. cbn [In] in Hk.
        repeat (destruct Hk as [<-|Hk]; [reflexivity|]). destruct Hk.
      + rewrite Habsent. apply validate_undefined_required. reflexivity.
      + rewrite Hv. exists issues. split; [assumption|reflexivity].
    - rewrite Hv. exists issues. split; [assumption|reflexivity]. }
  destruct Hbad as (issues & Hne & Hbad).
  exists issues. split; [assumption|].
  unfold getRateLimit, after_call, rate_limit_request, body_of in *.
  unfold bind, githubRequest, parse, throw.
  cbn [opt_method opt_body opt_headers GET].
  rewrite Hserve, Hok, Hbad. reflexivity.
Qed.

(** ** More on the handler *)

(** X12.  A name that is no case of the [switch] makes no call; it is
    reported as an unknown tool only when a credential is at hand, the
    missing credential being reported first otherwise. *)
Theorem unknown_tool_is_reported_after_the_credential :
  forall table env name given (w : World),
    assoc name table = None ->
    snd (CallTool table env name (Some given) w) = w
    /\ (credential_available env given = true ->
        fst (CallTool table env name (Some given) w)
        = Throw (Error ("Unknown tool: " ++ name)))
    /\ (credential_available env given = false ->
        MissingCredential (fst (CallTool table env name (Some given) w))).
Proof.
  intros table env name given w Hname.
  unfold CallTool, try_catch, handle, bind, MissingCredential.
  destruct (resolve_credential_outcome env given)
    as (out & Hout & [(Hav & ->)|(Hav & resolved & -> & _)]);
    rewrite Hout.
  - repeat split; try reflexivity. congruence.
  - unfold dispatch. rewrite Hname. repeat split; try reflexivity. congruence.
Qed.

Lemma get_issue_case :
  assoc "get_issue" tools
  = Some (mkTool (Some _GetIssueSchema) (fun args =>
            text_of (getIssue
                       (field_string args "github_pat") (field_string args "owner")
                       (field_string args "repo")
                       (field_number args "issue_number")))).
Proof. reflexivity. Qed.

(** X13.  [get_issue] on a record that has a credential, an owner, a
    repository and an integer number makes one call, the GET of that issue,
    the number printed into the URL as the platform prints a number, with
    the credential of the record, whatever the environment holds and
    whatever else the record holds; a success returns the body as text, a
    response that is not a success is thrown as an [Error] with the
    formatted message of its class, and a failure of the network is thrown
    as it is. *)
Theorem get_issue_from_record_to_reply :
  forall env given github_pat owner repo number (w : World),
    assoc "github_pat" given = Some (JStr github_pat) ->
    github_pat <> "" ->
    assoc "owner" given = Some (JStr owner) ->
    assoc "repo" given = Some (JStr repo) ->
    assoc "issue_number" given = Some (JNum number) ->
    exists reply,
      calls (snd (CallTool tools env "get_issue" (Some given) w))
      = (calls w ++ [(get_issue_request github_pat owner repo number, reply)])%list
      /\ (forall a, reply = Answer a -> ok a = true ->
          fst (CallTool tools env "get_issue" (Some given) w)
          = Return (JSON_stringify_indent (body_of a)))
      /\ (forall a, reply = Answer a -> ok a = false ->
          fst (CallTool tools env "get_issue" (Some given) w)
          = Throw (Error (formatGitHubError
                            (createGitHubError (resp_status a) (resp_headers a)
                               (resp_body a)))))
      /\ (forall reason, reply = NetworkFailure reason ->
          fst (CallTool tools env "get_issue" (Some given) w)
          = Throw (TypeError reason)).
Proof.
  intros env given github_pat owner repo number w Hpat Hne Howner Hrepo Hnumber.
  unfold CallTool, handle, resolve_credential.
  rewrite Hpat. cbn [truthy].
  destruct (String.eqb_spec github_pat ""); [contradiction|]. cbn [negb].
  unfold try_catch.
  rewrite (bind_returns _ _ (ret given) _ w w given eq_refl).
  unfold dispatch. rewrite get_issue_case. cbn [input run].
  assert (Hparse : parse_input _GetIssueSchema (JObj given) w
            = (Return (JObj [("owner", JStr owner); ("repo", JStr repo);
                             ("issue_number", JNum number);
                             ("github_pat", JStr github_pat)]), w)).
  { unfold parse_input.
    change _GetIssueSchema
      with (ZObject [("owner", ZString); ("repo", ZString);
                     ("issue_number", ZNumber); ("github_pat", ZString)]).
    rewrite validate_object_shape. cbn [validate_shape validate app].
    rewrite Hpat, Howner, Hrepo, Hnumber. reflexivity. }
  rewrite (bind_returns _ _ _ _ w w _ Hparse).
  unfold text_of, getIssue, get_issue_request, body_of, field_string, field_number.
  cbn [prop assoc String.eqb Ascii.eqb Bool.eqb].
  unfold bind, githubRequest, convert_error, ret, throw.
  cbn [opt_method opt_body opt_headers GET].
  match goal with
  | |- context [serve ?s ?r] => destruct (serve s r) as [reply remote'] eqn:Eserve
  end.
  exists reply.
  destruct reply as [reason|a].
  - split; [reflexivity|]. repeat split; intros; try discriminate.
    match goal with H : NetworkFailure _ = NetworkFailure _ |- _ =>
      injection H as <- end. reflexivity.
  - destruct (ok a) eqn:Eok.
    + split; [reflexivity|]. repeat split; intros; try discriminate.
      * match goal with H : Answer _ = Answer _ |- _ => injection H as <- end.
        reflexivity.
      * match goal with H : Answer _ = Answer _ |- _ => injection H as <- end.
        congruence.
    + split; [reflexivity|]. repeat split; intros; try discriminate.
      * match goal with H : Answer _ = Answer _ |- _ => injection H as <- end.
        congruence.
      * match goal with H : Answer _ = Answer _ |- _ => injection H as <- end.
        reflexivity.
Qed.

(** A case whose contract is an object either stops before its operation,
    leaving the world as found, or runs its operation on a record that the
    shape accepted. *)
Lemma CallTool_reaches_the_case :
  forall table env name sh operation given (w : World),
    assoc name table = Some (mkTool (Some (ZObject sh)) operation) ->
    (exists e, CallTool table env name (Some given) w = (Throw e, w))
    \/ (exists resolved out,
          validate_shape sh [] resolved = inr out
          /\ CallTool table env name (Some given) w
             = try_catch (operation (JObj out)) convert_error w).
Proof.
  intros table env name sh operation given w Hcase.
  remember (CallTool table env name (Some given) w) as result eqn:Hres.
  unfold CallTool, handle, try_catch in Hres.
  destruct (resolve_credential_outcome env given)
    as (out & Hout & [(Hav & ->)|(Hav & resolved & -> & _)]).
  - left. eexists. unfold bind in Hres. rewrite Hout in Hres. exact Hres.
  - rewrite (bind_returns _ _ _ _ w w resolved (Hout w)) in Hres.
    unfold dispatch in Hres. rewrite Hcase in Hres. cbn [input run] in Hres.
    unfold parse_input, bind in Hres. rewrite validate_object_shape in Hres.
    destruct (validate_shape sh [] resolved) as [issues|accepted] eqn:Hv.
    + left. eexists. exact Hres.
    + right. exists resolved, accepted. split; [exact Hv|].
      unfold try_catch. exact Hres.
Qed.

Lemma create_commit_status_case :
  assoc "create_commit_status" tools
  = Some (mkTool
            (Some (ZObject [("owner", ZString); ("repo", ZString); ("sha", ZString);
                      ("state", ZEnum ["error"; "failure"; "pending"; "success"]);
                      ("target_url", ZOptional ZString);
                      ("description", ZOptional ZString);
                      ("context", ZOptional ZString); ("github_pat", ZString)]))
            (fun args =>
               text_of (createCommitStatus
                          (field_string args "github_pat") (field_string args "owner")
                          (field_string args "repo") (field_string args "sha")
                          (field_string args "state")
                          (rest_of args ["github_pat"; "owner"; "repo"; "sha";
                                         "state"])))).
Proof. reflexivity. Qed.

(** X14.  Whatever record [create_commit_status] is given, it makes one
    call at most, and the body of that call holds a [state] that is one of
    error, failure, pending and success, followed by nothing but the target
    URL, the description and the context: the credential and any other key
    of the record never reach the body. *)
Theorem create_commit_status_sends_only_its_contract :
  forall env given (w : World),
    exists made,
      calls (snd (CallTool tools env "create_commit_status" (Some given) w))
      = (calls w ++ made)%list
      /\ (length made <= 1)%nat
      /\ (forall c, In c made ->
          exists state options,
            req_method (fst c) = "POST"
            /\ req_body (fst c)
               = Some (JsonBody (JObj (("state", JStr state) :: options)))
            /\ in_enum state ["error"; "failure"; "pending"; "success"] = true
            /\ (forall k, In k (keys options) ->
                In k ["target_url"; "description"; "context"])).
Proof.
  intros env given w.
  destruct (CallTool_reaches_the_case tools env "create_commit_status" _ _ given w
              create_commit_status_case)
    as [(e & ->)|(resolved & out & Hv & ->)].
  - exists []. rewrite app_nil_r. split; [reflexivity|].
    split; [apply Nat.le_0_l|]. intros c [].
  - assert (Hnd : NoDup (keys [("owner", ZString); ("repo", ZString); ("sha", ZString);
                      ("state", ZEnum ["error"; "failure"; "pending"; "success"]);
                      ("target_url", ZOptional ZString);
                      ("description", ZOptional ZString);
                      ("context", ZOptional ZString); ("github_pat", ZString)])).
    { cbn [keys map fst]. repeat constructor; cbn [In]; intuition discriminate. }
    pose proof (validate_shape_field _ _ _ _ Hv Hnd "state"
                  (ZEnum ["error"; "failure"; "pending"; "success"])) as Hstate.
    destruct (validate_enum_accepts _ _ _ _ (Hstate ltac:(cbn [In]; tauto)))
      as (state & _ & Hout & Henum).
    assert (Hkeys : forall k,
              In k (keys (rest_of (JObj out)
                            ["github_pat"; "owner"; "repo"; "sha"; "state"])) ->
              In k ["target_url"; "description"; "context"]).
    { intros k Hk. destruct (rest_of_keys _ _ _ Hk) as [Hin Hnot].
      pose proof (validate_shape_keys _ _ _ _ Hv k Hin) as Hsh.
      cbn [keys map fst In] in Hsh.
      repeat (destruct Hsh as [<-|Hsh]; [first [discriminate Hnot | cbn [In]; tauto]|]).
      destruct Hsh. }
    unfold try_catch, text_of, createCommitStatus, field_string.
    cbn [prop]. rewrite Hout.
    unfold bind, githubRequest, parse, convert_error, ret, throw.
    cbn [opt_method opt_body opt_headers app].
    match goal with
    | |- context [serve ?s ?r] => destruct (serve s r) as [reply remote'] eqn:Eserve
    end.
    eexists [_].
    split.
    + destruct reply as [reason|a]; [reflexivity|].
      destruct (ok a); [|reflexivity].
      destruct (CommitStatusSchema _); reflexivity.
    + split; [apply Nat.le_refl|].
      intros c [<-|[]]. exists state. eexists.
      split; [reflexivity|]. split; [reflexivity|].
      split; [exact Henum|exact Hkeys].
Qed.

Lemma create_issue_case :
  assoc "create_issue" more_tools
  = Some (mkTool
            (Some (ZObject [("owner", ZString); ("repo", ZString); ("title", ZString);
                      ("body", ZOptional ZString);
                      ("assignees", ZOptional (ZArray ZString));
                      ("milestone", ZOptional ZNumber);
                      ("labels", ZOptional (ZArray ZString));
                      ("github_pat", ZString)]))
            (fun args =>
               text_of (createIssue
                          (field_string args "github_pat") (field_string args "owner")
                          (field_string args "repo")
                          (rest_of args ["github_pat"; "owner"; "repo"])))).
Proof. reflexivity. Qed.

(** X15.  Whatever record [create_issue] is given, it makes one call at
    most, a POST whose body always has a title that is a string and no key
    besides the title, the body, the assignees, the milestone and the
    labels: no issue is created without a title, and the credential, the
    owner and the repository are never part of the body. *)
Theorem create_issue_sends_a_title_and_only_its_options :
  forall env given (w : World),
    exists made,
      calls (snd (CallTool more_tools env "create_issue" (Some given) w))
      = (calls w ++ made)%list
      /\ (length made <= 1)%nat
      /\ (forall c, In c made ->
          exists options title,
            req_method (fst c) = "POST"
            /\ req_body (fst c) = Some (JsonBody (JObj options))
            /\ assoc "title" options = Some (JStr title)
            /\ (forall k, In k (keys options) ->
                In k ["title"; "body"; "assignees"; "milestone"; "labels"])).
Proof.
  intros env given w.
  destruct (CallTool_reaches_the_case more_tools env "create_issue" _ _ given w
              create_issue_case)
    as [(e & ->)|(resolved & out & Hv & ->)].
  - exists []. rewrite app_nil_r. split; [reflexivity|].
    split; [apply Nat.le_0_l|]. intros c [].
  - assert (Hnd : NoDup (keys [("owner", ZString); ("repo", ZString);
                      ("title", ZString); ("body", ZOptional ZString);
                      ("assignees", ZOptional (ZArray ZString));
                      ("milestone", ZOptional ZNumber);
                      ("labels", ZOptional (ZArray ZString));
                      ("github_pat", ZString)])).
    { cbn [keys map fst]. repeat constructor; cbn [In]; intuition discriminate. }
    pose proof (validate_shape_field _ _ _ _ Hv Hnd "title" ZString) as Htitle.
    destruct (validate_string_accepts _ _ _ (Htitle ltac:(cbn [In]; tauto)))
      as (title & _ & Hout).
    assert (Hkeys : forall k,
              In k (keys (rest_of (JObj out) ["github_pat"; "owner"; "repo"])) ->
              In k ["title"; "body"; "assignees"; "milestone"; "labels"]).
    { intros k Hk. destruct (rest_of_keys _ _ _ Hk) as [Hin Hnot].
      pose proof (validate_shape_keys _ _ _ _ Hv k Hin) as Hsh.
      cbn [keys map fst In] in Hsh.
      repeat (destruct Hsh as [<-|Hsh]; [first [discriminate Hnot | cbn [In]; tauto]|]).
      destruct Hsh. }
    unfold try_catch, text_of, createIssue.
    unfold bind, githubRequest, convert_error, ret, throw.
    cbn [opt_method opt_body opt_headers].
    match goal with
    | |- context [serve ?s ?r] => destruct (serve s r) as [reply remote'] eqn:Eserve
    end.
    eexists [_].
    split.
    + destruct reply as [reason|a]; [reflexivity|].
      destruct (ok a); reflexivity.
    + split; [apply Nat.le_refl|].
      intros c [<-|[]]. eexists. exists title.
      split; [reflexivity|]. split; [reflexivity|].
      split; [|exact Hkeys].
      rewrite rest_of_assoc by reflexivity. exact Hout.
Qed.

Lemma update_issue_case :
  assoc "update_issue" more_tools
  = Some (mkTool
            (Some (ZObject [("owner", ZString); ("repo", ZString);
                      ("issue_number", ZNumber); ("title", ZOptional ZString);
                      ("body", ZOptional ZString);
                      ("assignees", ZOptional (ZArray ZString));
                      ("milestone", ZOptional ZNumber);
                      ("labels", ZOptional (ZArray ZString));
                      ("state", ZOptional (ZEnum ["open"; "closed"]));
                      ("github_pat", ZString)]))
            (fun args =>
               text_of (updateIssue
                          (field_string args "github_pat") (field_string args "owner")
                          (field_string args "repo")
                          (field_number args "issue_number")
                          (rest_of args ["github_pat"; "owner"; "repo";
                                         "issue_number"])))).
Proof. reflexivity. Qed.

(** X19.  Whatever record [update_issue] is given, it makes one call at
    most, a PATCH whose body has no key besides the title, the body, the
    assignees, the milestone, the labels and the state, and whose state,
    when it has one, is open or closed: the number of the issue goes into
    the URL only, and the credential never into the body. *)
Theorem update_issue_sends_only_its_options :
  forall env given (w : World),
    exists made,
      calls (snd (CallTool more_tools env "update_issue" (Some given) w))
      = (calls w ++ made)%list
      /\ (length made <= 1)%nat
      /\ (forall c, In c made ->
          exists options,
            req_method (fst c) = "PATCH"
            /\ req_body (fst c) = Some (JsonBody (JObj options))
            /\ (forall k, In k (keys options) ->
                In k ["title"; "body"; "assignees"; "milestone"; "labels"; "state"])
            /\ (forall v, assoc "state" options = Some v ->
                exists s, v = JStr s /\ in_enum s ["open"; "closed"] = true)).
Proof.
  intros env given w.
  destruct (CallTool_reaches_the_case more_tools env "update_issue" _ _ given w
              update_issue_case)
    as [(e & ->)|(resolved & out & Hv & ->)].
  - exists []. rewrite app_nil_r. split; [reflexivity|].
    split; [apply Nat.le_0_l|]. intros c [].
  - assert (Hnd : NoDup (keys [("owner", ZString); ("repo", ZString);
                      ("issue_number", ZNumber); ("title", ZOptional ZString);
                      ("body", ZOptional ZString);
                      ("assignees", ZOptional (ZArray ZString));
                      ("milestone", ZOptional ZNumber);
                      ("labels", ZOptional (ZArray ZString));
                      ("state", ZOptional (ZEnum ["open"; "closed"]));
                      ("github_pat", ZString)])).
    { cbn [keys map fst]. repeat constructor; cbn [In]; intuition discriminate. }
    pose proof (validate_shape_field _ _ _ _ Hv Hnd "state"
                  (ZOptional (ZEnum ["open"; "closed"]))
                  ltac:(cbn [In]; tauto)) as Hstate.
    assert (Hopen : forall v, assoc "state" out = Some v ->
              exists s, v = JStr s /\ in_enum s ["open"; "closed"] = true).
    { intros v Hsv. rewrite Hsv in Hstate. cbn [validate] in Hstate.
      destruct (assoc "state" resolved) as [x|]; [|discriminate Hstate].
      destruct x as [| | |s| |]; try discriminate Hstate.
      destruct (in_enum s ["open"; "closed"]) eqn:Henum; [|discriminate Hstate].
      injection Hstate as <-. exists s. split; [reflexivity|exact Henum]. }
    assert (Hkeys : forall k,
              In k (keys (rest_of (JObj out)
                            ["github_pat"; "owner"; "repo"; "issue_number"])) ->
              In k ["title"; "body"; "assignees"; "milestone"; "labels"; "state"]).
    { intros k Hk. destruct (rest_of_keys _ _ _ Hk) as [Hin Hnot].
      pose proof (validate_shape_keys _ _ _ _ Hv k Hin) as Hsh.
      cbn [keys map fst In] in Hsh.
      repeat (destruct Hsh as [<-|Hsh]; [first [discriminate Hnot | cbn [In]; tauto]|]).
      destruct Hsh. }
    unfold try_catch, text_of, updateIssue.
    unfold bind, githubRequest, convert_error, ret, throw.
    cbn [opt_method opt_body opt_headers].
    match goal with
    | |- context [serve ?s ?r] => destruct (serve s r) as [reply remote'] eqn:Eserve
    end.
    eexists [_].
    split.
    + destruct reply as [reason|a]; [reflexivity|].
      destruct (ok a); reflexivity.
    + split; [apply Nat.le_refl|].
      intros c [<-|[]]. eexists.
      split; [reflexivity|]. split; [reflexivity|].
      split; [exact Hkeys|].
      intros v Hsv. apply Hopen.
      rewrite rest_of_assoc in Hsv by reflexivity. exact Hsv.
Qed.

Lemma create_or_update_file_case :
  assoc "create_or_update_file" tools
  = Some (mkTool
            (Some (ZObject [("owner", ZString); ("repo", ZString); ("path", ZString);
                      ("content", ZString); ("message", ZString);
                      ("branch", ZString); ("sha", ZOptional ZString);
                      ("github_pat", ZString)]))
            (fun args =>
               text_of (createOrUpdateFile
                          (field_string args "github_pat") (field_string args "owner")
                          (field_string args "repo") (field_string args "path")
                          (field_string args "content") (field_string args "message")
                          (field_string args "branch")
                          (field_optional_string args "sha")))).
Proof. reflexivity. Qed.

(** X16.  The invalid-input error is also what a reply that its contract
    rejects is reported as: [create_or_update_file] on a complete record
    makes its call, and when the reply is a success that the response
    contract rejects, the caller is told of an invalid input although the
    record was accepted and the file may have been written. *)
Theorem rejected_reply_is_reported_as_invalid_input :
  forall env github_pat owner repo path content message branch sha
         (w : World) a remote' issues,
    github_pat <> "" ->
    sha <> "" ->
    serve (remote w)
      (put_with_sha github_pat owner repo path content message branch (JStr sha))
    = (Answer a, remote') ->
    ok a = true ->
    GitHubCreateUpdateFileResponseSchema (body_of a) = inl issues ->
    CallTool tools env "create_or_update_file"
      (Some [("github_pat", JStr github_pat); ("owner", JStr owner);
             ("repo", JStr repo); ("path", JStr path); ("content", JStr content);
             ("message", JStr message); ("branch", JStr branch);
             ("sha", JStr sha)])
      w
    = (Throw (Error ("Invalid input: " ++ JSON_stringify_issues issues)),
       after_call w remote'
         (put_with_sha github_pat owner repo path content message branch (JStr sha))
         (Answer a)).
Proof.
  intros env github_pat owner repo path content message0 branch sha w a remote'
         issues Hpat Hsha Hserve Hok Hreject.
  assert (Htruthy : truthy (Some (JStr sha)) = true).
  { cbn [truthy]. destruct (String.eqb_spec sha ""); [contradiction|reflexivity]. }
  unfold CallTool, handle, try_catch, resolve_credential.
  cbn [assoc String.eqb Ascii.eqb Bool.eqb andb truthy].
  destruct (String.eqb_spec github_pat ""); [contradiction|]. cbn [negb].
  match goal with
  | |- context [bind (ret ?x) ?k w] =>
      rewrite (bind_returns _ _ (ret x) k w w x eq_refl)
  end.
  unfold dispatch. rewrite create_or_update_file_case. cbn [input run].
  match goal with
  | |- context [bind (parse_input ?t ?x) ?k w] =>
      rewrite (bind_returns _ _ (parse_input t x) k w w
                 (JObj [("owner", JStr owner); ("repo", JStr repo);
                        ("path", JStr path); ("content", JStr content);
                        ("message", JStr message0); ("branch", JStr branch);
                        ("sha", JStr sha); ("github_pat", JStr github_pat)])
                 eq_refl)
  end.
  unfold text_of, field_string, field_optional_string.
  cbn [prop assoc String.eqb Ascii.eqb Bool.eqb andb].
  unfold createOrUpdateFile. cbn [option_map]. rewrite Htruthy. cbn [negb].
  unfold after_call, put_with_sha, body_of in *.
  unfold bind, ret, githubRequest, parse, convert_error, throw.
  cbn [opt_method opt_body opt_headers]. rewrite Htruthy. cbn [object app].
  rewrite Hserve, Hok, Hreject. reflexivity.
Qed.

(** ** The list of tools *)

Lemma member_In :
  forall k ks, member k ks = true -> In k ks.
Proof.
  intros k ks. unfold member. rewrite existsb_exists.
  intros (x & Hin & Heq). apply String.eqb_eq in Heq. subst x. exact Hin.
Qed.

Lemma subset_incl :
  forall xs ys, subset xs ys = true -> forall x, In x xs -> In x ys.
Proof.
  intros xs ys H x Hin. unfold subset in H. rewrite forallb_forall in H.
  apply member_In. apply H. exact Hin.
Qed.

Lemma distinct_NoDup :
  forall xs, distinct xs = true -> NoDup xs.
Proof.
  induction xs as [|x rest IH]; intros H; [constructor|].
  cbn [distinct] in H. apply andb_true_iff in H. destruct H as [Hx Hrest].
  constructor; [|apply IH; exact Hrest].
  intros Hin. apply negb_true_iff in Hx.
  assert (Hm : member x rest = true).
  { unfold member. rewrite existsb_exists. exists x. split; [exact Hin|].
    apply String.eqb_refl. }
  congruence.
Qed.

(** X17.  The names listed to the client and the cases of the [switch] are
    the same names, each once: every tool that is listed can be called and
    every case is listed; and no entry of the list has an empty name or an
    empty description. *)
Theorem every_listed_tool_has_a_case :
  (forall name, In name (keys listed_tools) <-> In name switch_labels)
  /\ NoDup (keys listed_tools)
  /\ NoDup switch_labels
  /\ (forall name description, In (name, description) listed_tools ->
      name <> "" /\ description <> "").
Proof.
  split; [|split; [|split]].
  - intros name. split.
    + apply subset_incl. vm_compute. reflexivity.
    + apply subset_incl. vm_compute. reflexivity.
  - apply distinct_NoDup. vm_compute. reflexivity.
  - apply distinct_NoDup. vm_compute. reflexivity.
  - assert (H : forallb (fun nd => (negb (fst nd =? "") && negb (snd nd =? ""))%bool)
                  listed_tools = true) by (vm_compute; reflexivity).
    rewrite forallb_forall in H. intros name description Hin.
    specialize (H _ Hin). cbn [fst snd] in H.
    apply andb_true_iff in H. destruct H as [H1 H2].
    apply negb_true_iff in H1, H2.
    split; intros ->; discriminate.
Qed.

Lemma validate_files_given :
  forall fs p,
    validate (ZArray FileOperationSchema) p (Some (JArr (map file_json fs)))
    = inr (Some (JArr (map file_json fs))).
Proof.
  intros fs p. cbn [validate].
  match goal with
  | |- match ?f (map file_json fs) 0%nat with _ => _ end = _ =>
      assert (E : forall i, f (map file_json fs) i = inr (map file_json fs))
  end.
  { induction fs as [|f rest IH]; intros i; cbn [map]; [reflexivity|].
    rewrite IH. reflexivity. }
  rewrite E. reflexivity.
Qed.

Lemma files_read_back :
  forall fs,
    map (fun x => mkFile (field_string x "path") (field_string x "content"))
        (map file_json fs)
    = fs.
Proof.
  induction fs as [|[p c] rest IH]; cbn [map]; [reflexivity|].
  rewrite IH. reflexivity.
Qed.

Lemma push_files_case :
  assoc "push_files" tools
  = Some (mkTool
            (Some (ZObject [("owner", ZString); ("repo", ZString); ("branch", ZString);
                      ("files", ZArray FileOperationSchema); ("message", ZString);
                      ("github_pat", ZString)]))
            (fun args =>
               text_of (pushFiles
                          (field_string args "github_pat") (field_string args "owner")
                          (field_string args "repo") (field_string args "branch")
                          (field_files args "files") (field_string args "message")))).
Proof. reflexivity. Qed.

(** X18.  [push_files] on a complete record runs the push on the files of
    the record, each with its path and its content, in the order given and
    none left out, with the credential of the record whatever the
    environment holds; what the push returns or throws goes through the
    [catch] of the handler. *)
Theorem push_files_pushes_the_files_given :
  forall env github_pat owner repo branch files message (w : World),
    github_pat <> "" ->
    CallTool tools env "push_files"
      (Some [("github_pat", JStr github_pat); ("owner", JStr owner);
             ("repo", JStr repo); ("branch", JStr branch);
             ("files", JArr (map file_json files)); ("message", JStr message)])
      w
    = try_catch
        (text_of (pushFiles github_pat owner repo branch files message))
        convert_error w.
Proof.
  intros env github_pat owner repo branch files message0 w Hpat.
  unfold CallTool, handle, resolve_credential.
  cbn [assoc String.eqb Ascii.eqb Bool.eqb andb truthy].
  destruct (String.eqb_spec github_pat ""); [contradiction|]. cbn [negb].
  unfold try_catch at 1.
  match goal with
  | |- context [bind (ret ?x) ?k w] =>
      rewrite (bind_returns _ _ (ret x) k w w x eq_refl)
  end.
  unfold dispatch. rewrite push_files_case. cbn [input run].
  assert (Hparse :
    parse_input
      (ZObject [("owner", ZString); ("repo", ZString); ("branch", ZString);
                ("files", ZArray FileOperationSchema); ("message", ZString);
                ("github_pat", ZString)])
      (JObj [("github_pat", JStr github_pat); ("owner", JStr owner);
             ("repo", JStr repo); ("branch", JStr branch);
             ("files", JArr (map file_json files)); ("message", JStr message0)])
      w
    = (Return (JObj [("owner", JStr owner); ("repo", JStr repo);
                     ("branch", JStr branch);
                     ("files", JArr (map file_json files));
                     ("message", JStr message0);
                     ("github_pat", JStr github_pat)]), w)).
  { unfold parse_input. rewrite validate_object_shape.
    cbn [validate_shape assoc String.eqb Ascii.eqb Bool.eqb andb app].
    rewrite validate_files_given. reflexivity. }
  rewrite (bind_returns _ _ _ _ w w _ Hparse).
  unfold field_string, field_files.
  cbn [prop assoc String.eqb Ascii.eqb Bool.eqb andb].
  rewrite files_read_back. reflexivity.
Qed.

End Properties.

(** * The properties at concrete inputs *)

Section Examples.
Import Demo.

(** C1.  A branch is created without a source on a repository where both
    probes are refused (status 401): the probe of [main] is made, then the
    probe of [master], and the result is the authentication error of the
    second probe as it was raised, not a not-found error and not the error
    the operation keeps for a default branch it could not find. *)
Theorem create_branch_both_probes_fail_raises_the_second_failure :
  let refused := reply 401 (JObj [("message", JStr "Bad credentials")]) in
  let out := createBranchFromRef "token" "o" "r" "feature" None
               (start [refused; refused]) in
  map fst (calls (snd out))
  = [probe "token" "o" "r" "main"; probe "token" "o" "r" "master"]
  /\ fst out
     = Throw (GitHubFailure
                (mkGitHubError CGitHubAuthenticationError "Bad credentials" 401
                   (Some (JObj [("message", JStr "Bad credentials")]))))
  /\ fst out
     <> Throw (Error "Could not find default branch (tried 'main' and 'master')")
  /\ (forall e, fst out = Throw (GitHubFailure e) ->
      cls e <> CGitHubResourceNotFoundError).
Proof.
  cbv zeta. repeat split.
  - discriminate.
  - intros e H. vm_compute in H. injection H as <-. discriminate.
Qed.

(** C3, counterexample.  [get_issue] on a record without [owner], which its
    contract requires, and with no credential anywhere: the failure is the
    missing credential, not the invalid input. *)
Lemma missing_field_without_credential_is_not_invalid_input :
  let given := [("repo", JStr "r"); ("issue_number", JNum 1)] in
  required_in "owner" _GetIssueSchema = true
  /\ assoc "owner" given = None
  /\ CallTool tools no_env "get_issue" (Some given) (start [])
     = (Throw (Error "GitHub PAT is required"), start [])
  /\ ~ InvalidArgument (fst (CallTool tools no_env "get_issue" (Some given) (start []))).
Proof.
  cbv zeta. repeat split.
  intros (issues & _ & H). vm_compute in H. discriminate H.
Qed.

(** C3, witness: the same record with a credential in the environment. *)
Lemma missing_required_field_witness :
  exists issues,
    issues <> []
    /\ CallTool tools (mkEnv (Some "token") None) "get_issue"
         (Some [("repo", JStr "r"); ("issue_number", JNum 1)]) (start [])
       = (Throw (Error ("Invalid input: " ++ JSON_stringify_issues issues)),
          start []).
Proof.
  destruct (missing_required_field_is_rejected_before_any_call
              (mkEnv (Some "token") None) "get_issue" _GetIssueSchema
              [("repo", JStr "r"); ("issue_number", JNum 1)] "owner"
              eq_refl ltac:(discriminate))
    as (r & Hinvalid & _ & Hcall).
  destruct (Hinvalid eq_refl) as (issues & Hne & ->).
  exists issues. split; [exact Hne|].
  eapply Hcall. reflexivity.
Defined.

(** A field missing below the top of the record is rejected in the same
    way: [push_files] with a file that has no [content]. *)
Example push_files_rejects_a_file_without_content :
  let given := [("github_pat", JStr "token"); ("owner", JStr "o");
                ("repo", JStr "r"); ("branch", JStr "main");
                ("files", JArr [JObj [("path", JStr "a.txt")]]);
                ("message", JStr "add a")] in
  lacks_required_under "files" _PushFilesSchema given = true
  /\ exists message,
       CallTool tools no_env "push_files" (Some given) (start [])
       = (Throw (Error ("Invalid input: " ++ message)), start []).
Proof.
  cbv zeta. split; [reflexivity|]. eexists. vm_compute. reflexivity.
Qed.

(** The case [create_branch] parses a contract that operations/branches.ts
    does not export: with a credential, a record that lacks every required
    field and a record that is complete fail alike, with the [TypeError] of
    the read of [parse]; no call is made. *)
Example create_branch_parses_an_undefined_contract :
  let thrown :=
    Throw (TypeError "Cannot read properties of undefined (reading 'parse')") in
  CallTool more_tools no_env "create_branch"
    (Some [("github_pat", JStr "token")]) (start [])
  = (thrown, start [])
  /\ CallTool more_tools no_env "create_branch"
       (Some [("github_pat", JStr "token"); ("owner", JStr "o");
              ("repo", JStr "r"); ("branch", JStr "feature")])
       (start [reply 200 a_reference; reply 201 a_reference])
     = (thrown, start [reply 200 a_reference; reply 201 a_reference]).
Proof.
  cbv zeta. split; reflexivity.
Qed.

(** A push of three files on a service that accepts the reference and the
    tree and then fails on the commit: three calls are made, the reference
    is not updated (the reply kept for it is left unused), and the failure
    of the third call is the result.  On a service that accepts everything
    the four calls are made and the updated reference is returned. *)
Example push_of_three_files_stops_at_the_failed_commit :
  let files := [mkFile "a.txt" "1"; mkFile "b.txt" "2"; mkFile "c.txt" "3"] in
  let a_tree := JObj [("sha", JStr "t1")] in
  let a_commit := JObj [("sha", JStr "c1")] in
  let failure := JObj [("message", JStr "Server Error")] in
  let plan := pushFiles_plan "token" "o" "r" "develop" files "three files"
                a_reference a_tree a_commit in
  let stopped := pushFiles "token" "o" "r" "develop" files "three files"
                   (start [reply 200 a_reference; reply 201 a_tree;
                           reply 500 failure; reply 200 a_reference]) in
  let pushed := pushFiles "token" "o" "r" "develop" files "three files"
                  (start [reply 200 a_reference; reply 201 a_tree;
                          reply 201 a_commit; reply 200 a_reference]) in
  map fst (calls (snd stopped)) = firstn 3 plan
  /\ remote (snd stopped) = [reply 200 a_reference]
  /\ fst stopped
     = Throw (GitHubFailure (mkGitHubError CGitHubError "Server Error" 500
                               (Some failure)))
  /\ map fst (calls (snd pushed)) = plan
  /\ remote (snd pushed) = []
  /\ fst pushed = Return a_reference.
Proof.
  cbv zeta. repeat split.
Qed.

(** C8, counterexample.  [create_commit_status] with a state that the
    enumeration does not list and with no credential anywhere: the failure
    is the missing credential, not the invalid input. *)
Lemma unlisted_state_without_credential_is_not_invalid_input :
  let given := [("owner", JStr "o"); ("repo", JStr "r"); ("sha", JStr "abc");
                ("state", JStr "cancelled")] in
  enum_of "state" _CreateCommitStatusSchema
  = Some ["error"; "failure"; "pending"; "success"]
  /\ outside_enum (JStr "cancelled") ["error"; "failure"; "pending"; "success"] = true
  /\ CallTool tools no_env "create_commit_status" (Some given) (start [])
     = (Throw (Error "GitHub PAT is required"), start [])
  /\ ~ InvalidArgument
         (fst (CallTool tools no_env "create_commit_status" (Some given) (start []))).
Proof.
  cbv zeta. repeat split.
  intros (issues & _ & H). vm_compute in H. discriminate H.
Qed.

(** C8, witness: [create_commit_status] with a state outside of error,
    failure, pending and success, and a credential in the record. *)
Lemma value_outside_enumeration_witness :
  exists issues,
    issues <> []
    /\ CallTool tools no_env "create_commit_status"
         (Some [("github_pat", JStr "token"); ("owner", JStr "o");
                ("repo", JStr "r"); ("sha", JStr "abc");
                ("state", JStr "cancelled")])
         (start [])
       = (Throw (Error ("Invalid input: " ++ JSON_stringify_issues issues)),
          start []).
Proof.
  destruct (value_outside_enumeration_is_rejected
              no_env "create_commit_status" _CreateCommitStatusSchema
              [("github_pat", JStr "token"); ("owner", JStr "o");
               ("repo", JStr "r"); ("sha", JStr "abc");
               ("state", JStr "cancelled")]
              "state" ["error"; "failure"; "pending"; "success"]
              (JStr "cancelled")
              eq_refl ltac:(discriminate) eq_refl eq_refl)
    as (r & Hinvalid & _ & Hcall).
  destruct (Hinvalid eq_refl) as (issues & Hne & ->).
  exists issues. split; [exact Hne|].
  eapply Hcall. reflexivity.
Defined.

(** The enumerated [state] of [list_issues] (open, closed, all) rejects
    another state in the same way. *)
Example list_issues_rejects_an_unlisted_state :
  enum_of "state" _ListIssuesOptionsSchema = Some ["open"; "closed"; "all"]
  /\ exists message,
       CallTool tools no_env "list_issues"
         (Some [("github_pat", JStr "token"); ("owner", JStr "o");
                ("repo", JStr "r"); ("state", JStr "merged")])
         (start [])
       = (Throw (Error ("Invalid input: " ++ message)), start []).
Proof.
  split; [reflexivity|]. eexists. vm_compute. reflexivity.
Qed.

(** C4, counterexample.  [GITHUB_PAT] is set to two spaces, which is not
    empty, and [GITHUB_PERSONAL_ACCESS_TOKEN] to a token: the order as
    specified takes the first variable, the handler takes the second. *)
Lemma blank_variable_is_skipped :
  let env := mkEnv (Some "  ") (Some "token") in
  credential_as_specified env [] = Some (JStr "  ")
  /\ credential_resolved env [] (start []) = Some (JStr "token")
  /\ credential_as_specified env [] <> credential_resolved env [] (start []).
Proof.
  cbv zeta. repeat split. discriminate.
Qed.

(** C5, witness: the probe is answered by a server error, the write by a
    success. *)
Lemma createOrUpdateFile_probe_failure_witness :
  let script := [reply 500 (JObj [("message", JStr "Server Error")]);
                 reply 201 (JObj [("commit", JObj [("sha", JStr "c1")])])] in
  exists answer,
    calls (snd (createOrUpdateFile "token" "o" "r" "a.txt" "hello" "add a" "main"
                  None (start script)))
    = [(mkRequest "token" "https://api.github.com/repos/o/r/contents/a.txt?ref=main"
          "GET" None [],
        reply 500 (JObj [("message", JStr "Server Error")]));
       (put_without_sha "token" "o" "r" "a.txt" "hello" "add a" "main", answer)].
Proof.
  cbv zeta.
  destruct (createOrUpdateFile_takes_any_probe_failure_for_absence
              "token" "o" "r" "a.txt" "hello" "add a" "main"
              (start [reply 500 (JObj [("message", JStr "Server Error")]);
                      reply 201 (JObj [("commit", JObj [("sha", JStr "c1")])])])
              _ _ eq_refl) as [_ [answer H]].
  exists answer. exact H.
Defined.

(** C10, counterexample.  An empty file, as the API returns it, read with
    the flag omitted: the record comes back with the encoding it had. *)
Lemma empty_file_keeps_its_encoding :
  let file := JObj [("type", JStr "file"); ("encoding", JStr "base64");
                    ("name", JStr "empty.txt"); ("path", JStr "empty.txt");
                    ("content", JStr ""); ("sha", JStr "e69de29")] in
  let out := getFileContents (mkGetFileContents "token" "o" "r" "empty.txt" None None)
               (start [reply 200 file]) in
  fst out = Return file
  /\ isArray file = false
  /\ prop file "encoding" = Some (JStr "base64")
  /\ prop file "encoding" <> Some (JStr "utf8").
Proof.
  cbv zeta. repeat split. discriminate.
Qed.

(** C10, witness: a file whose content is the base64 of [hello]. *)
Lemma getFileContents_decodes_witness :
  let file := JObj [("type", JStr "file"); ("encoding", JStr "base64");
                    ("name", JStr "a.txt"); ("path", JStr "a.txt");
                    ("content", JStr "aGVsbG8="); ("sha", JStr "b6fc4c6")] in
  let a := mkGetFileContents "token" "o" "r" "a.txt" None None in
  fst (getFileContents (with_encoded a None) (start [reply 200 file]))
  = Return (JObj [("type", JStr "file"); ("encoding", JStr "utf8");
                  ("name", JStr "a.txt"); ("path", JStr "a.txt");
                  ("content", JStr "hello"); ("sha", JStr "b6fc4c6")])
  /\ fst (getFileContents (with_encoded a (Some true)) (start [reply 200 file]))
     = Return file.
Proof.
  cbv zeta.
  edestruct (getFileContents_decodes_unless_encoded
               (mkGetFileContents "token" "o" "r" "a.txt" None None)
               (start [reply 200
                         (JObj [("type", JStr "file"); ("encoding", JStr "base64");
                                ("name", JStr "a.txt"); ("path", JStr "a.txt");
                                ("content", JStr "aGVsbG8="); ("sha", JStr "b6fc4c6")])]))
    as (H1 & _ & _ & _ & H5 & _).
  - vm_compute. reflexivity.
  - reflexivity.
  - reflexivity.
  - discriminate.
  - split.
    + rewrite H1. reflexivity.
    + rewrite H5. reflexivity.
Defined.


(** X2, witness: a branch created from [develop]. *)
Lemma createBranchFromRef_from_a_named_source_witness :
  exists probed rest,
    calls (snd (createBranchFromRef "token" "o" "r" "feature" (Some "develop")
                  (start [reply 200 a_reference; reply 201 a_reference])))
    = (probe "token" "o" "r" "develop", probed) :: rest.
Proof.
  destruct (createBranchFromRef_from_a_named_source
              "token" "o" "r" "feature" "develop"
              (start [reply 200 a_reference; reply 201 a_reference])
              ltac:(discriminate))
    as (probed & rest & H & _).
  exists probed, rest. exact H.
Defined.

(** X4, witness: [main] is not found and [master] is answered with
    [null]. *)
Lemma default_branch_not_found_witness :
  exists first a j,
    calls (snd (getDefaultBranchSHA "token" "o" "r"
                  (start [reply 404 (JObj []); reply 200 JNull])))
    = [(probe "token" "o" "r" "main", first);
       (probe "token" "o" "r" "master", Answer a)]
    /\ ok a = true
    /\ resp_body a = Some j
    /\ truthy (Some j) = false.
Proof.
  apply (default_branch_not_found_needs_a_falsy_success
           "token" "o" "r" (start [reply 404 (JObj []); reply 200 JNull])).
  reflexivity.
Defined.

(** X5, witness: a file written with its revision. *)
Lemma createOrUpdateFile_with_a_revision_witness :
  exists answer,
    calls (snd (createOrUpdateFile "token" "o" "r" "a.txt" "hello" "edit" "main"
                  (Some "b6fc4c6") (start [])))
    = [(put_with_sha "token" "o" "r" "a.txt" "hello" "edit" "main"
          (JStr "b6fc4c6"), answer)].
Proof.
  destruct (createOrUpdateFile_with_a_revision_does_not_probe
              "token" "o" "r" "a.txt" "hello" "edit" "main" "b6fc4c6" (start [])
              ltac:(discriminate))
    as (answer & H & _).
  exists answer. exact H.
Defined.

(** X6, witness: the probe finds the file. *)
Lemma createOrUpdateFile_reuses_the_revision_witness :
  map fst
      (calls (snd (createOrUpdateFile "token" "o" "r" "a.txt" "hello" "edit"
                     "main" None
                     (start [reply 200 a_file;
                             reply 200 (JObj [("commit",
                                               JObj [("sha", JStr "c1")])])]))))
    = [mkRequest "token" "https://api.github.com/repos/o/r/contents/a.txt?ref=main"
         "GET" None [];
       put_with_sha "token" "o" "r" "a.txt" "hello" "edit" "main" (JStr "b6fc4c6")].
Proof.
  edestruct (createOrUpdateFile_reuses_the_revision_found
               "token" "o" "r" "a.txt" "hello" "edit" "main"
               (start [reply 200 a_file;
                       reply 200 (JObj [("commit", JObj [("sha", JStr "c1")])])]))
    as (answer & H & _).
  - vm_compute. reflexivity.
  - reflexivity.
  - reflexivity.
  - discriminate.
  - rewrite H. reflexivity.
Defined.

(** X7, witness: the path is a directory. *)
Lemma createOrUpdateFile_on_a_directory_witness :
  map fst
      (calls (snd (createOrUpdateFile "token" "o" "r" "docs" "hello" "add" "main"
                     None (start [reply 200 (JArr [])]))))
    = [mkRequest "token" "https://api.github.com/repos/o/r/contents/docs?ref=main"
         "GET" None [];
       put_without_sha "token" "o" "r" "docs" "hello" "add" "main"].
Proof.
  edestruct (createOrUpdateFile_on_a_directory_sends_no_revision
               "token" "o" "r" "docs" "hello" "add" "main"
               (start [reply 200 (JArr [])]))
    as (answer & H & _).
  - vm_compute. reflexivity.
  - reflexivity.
  - rewrite H. reflexivity.
Defined.

(** X9, witness: a file read with the flag omitted. *)
Lemma getFileContents_keeps_the_other_fields_witness :
  exists data,
    fetch_contents (mkGetFileContents "token" "o" "r" "a.txt" None None)
      (start [reply 200 a_file])
    = (Return data, mkWorld [] [(mkRequest "token"
                                   "https://api.github.com/repos/o/r/contents/a.txt"
                                   "GET" None [], reply 200 a_file)] [])
    /\ prop data "sha" = Some (JStr "b6fc4c6").
Proof.
  edestruct (getFileContents_keeps_the_other_fields
               (mkGetFileContents "token" "o" "r" "a.txt" None None)
               (start [reply 200 a_file]))
    as (data & Hfetch & _ & Hkeep).
  - vm_compute. reflexivity.
  - exists data. split; [exact Hfetch|].
    rewrite <- (Hkeep "sha") by discriminate. reflexivity.
Defined.

(** X10, witness: the release fetched is an empty object. *)
Lemma uploadReleaseAsset_needs_an_upload_url_witness :
  exists reason,
    uploadReleaseAsset "token" "o" "r" 7 "a.bin" "aGVsbG8=" "text/plain" None
      (start [reply 200 (JObj [])])
    = (Throw (TypeError reason),
       after_call (start [reply 200 (JObj [])]) []
         (fetch_release "token" "o" "r" 7) (reply 200 (JObj []))).
Proof.
  apply (uploadReleaseAsset_needs_an_upload_url
           "token" "o" "r" 7 "a.bin" "aGVsbG8=" "text/plain" None
           (start [reply 200 (JObj [])])
           (mkResponse 200 [] (Some (JObj []))) []).
  - reflexivity.
  - reflexivity.
  - intros u. discriminate.
Defined.

(** X11, witness: the reply lacks the [scim] resource. *)
Lemma getRateLimit_requires_every_resource_witness :
  exists issues,
    issues <> []
    /\ getRateLimit "token" (start [reply 200 limits_without_scim])
       = (Throw (ZodError issues),
          after_call (start [reply 200 limits_without_scim]) []
            (rate_limit_request "token") (reply 200 limits_without_scim)).
Proof.
  eapply (getRateLimit_requires_every_resource
            "token" (start [reply 200 limits_without_scim])
            (mkResponse 200 [] (Some limits_without_scim)) [] _ "scim").
  - reflexivity.
  - reflexivity.
  - reflexivity.
  - cbn [rate_limit_resources In]. tauto.
  - reflexivity.
Defined.

(** X12, witness: a name that is no case, with a credential in the
    record. *)
Lemma unknown_tool_witness :
  CallTool tools no_env "merge_pull_request" (Some [("github_pat", JStr "token")])
    (start [])
  = (Throw (Error "Unknown tool: merge_pull_request"), start []).
Proof.
  destruct (unknown_tool_is_reported_after_the_credential
              tools no_env "merge_pull_request" [("github_pat", JStr "token")]
              (start []) eq_refl)
    as (Hworld & Hknown & _).
  rewrite (surjective_pairing (CallTool _ _ _ _ _)).
  rewrite Hworld, (Hknown eq_refl). reflexivity.
Defined.

(** X13, witness: issue 7 of [o/r], answered with a success. *)
Lemma get_issue_from_record_to_reply_witness :
  exists answer,
    calls (snd (CallTool tools (mkEnv (Some "other") None) "get_issue"
                  (Some [("owner", JStr "o"); ("repo", JStr "r");
                         ("issue_number", JNum 7); ("github_pat", JStr "token");
                         ("extra", JBool true)])
                  (start [reply 200 (JObj [("number", JNum 7)])])))
    = [(get_issue_request "token" "o" "r" 7, answer)].
Proof.
  destruct (get_issue_from_record_to_reply
              (mkEnv (Some "other") None)
              [("owner", JStr "o"); ("repo", JStr "r");
               ("issue_number", JNum 7); ("github_pat", JStr "token");
               ("extra", JBool true)]
              "token" "o" "r" 7
              (start [reply 200 (JObj [("number", JNum 7)])])
              eq_refl ltac:(discriminate) eq_refl eq_refl eq_refl)
    as (answer & H & _).
  exists answer. exact H.
Defined.

(** X16, witness: the write is answered with an empty object. *)
Lemma rejected_reply_is_reported_as_invalid_input_witness :
  exists issues,
    fst (CallTool tools no_env "create_or_update_file"
           (Some [("github_pat", JStr "token"); ("owner", JStr "o");
                  ("repo", JStr "r"); ("path", JStr "a.txt");
                  ("content", JStr "hello"); ("message", JStr "edit");
                  ("branch", JStr "main"); ("sha", JStr "b6fc4c6")])
           (start [reply 200 (JObj [])]))
    = Throw (Error ("Invalid input: " ++ JSON_stringify_issues issues))
    /\ issues <> [].
Proof.
  eexists. split.
  - erewrite (rejected_reply_is_reported_as_invalid_input
                no_env "token" "o" "r" "a.txt" "hello" "edit" "main" "b6fc4c6"
                (start [reply 200 (JObj [])])
                (mkResponse 200 [] (Some (JObj []))) []).
    + reflexivity.
    + discriminate.
    + discriminate.
    + reflexivity.
    + reflexivity.
    + vm_compute. reflexivity.
  - discriminate.
Defined.

(** X18, witness: two files pushed with the credential of the record. *)
Lemma push_files_pushes_the_files_given_witness :
  CallTool tools no_env "push_files"
    (Some [("github_pat", JStr "token"); ("owner", JStr "o"); ("repo", JStr "r");
           ("branch", JStr "main");
           ("files", JArr (map file_json [mkFile "a" "1"; mkFile "b" "2"]));
           ("message", JStr "two files")])
    (start [])
  = try_catch
      (text_of (pushFiles "token" "o" "r" "main" [mkFile "a" "1"; mkFile "b" "2"]
                  "two files"))
      convert_error (start []).
Proof.
  apply (push_files_pushes_the_files_given
           no_env "token" "o" "r" "main" [mkFile "a" "1"; mkFile "b" "2"]
           "two files" (start [])).
  discriminate.
Defined.

End Examples.
